(** * ArduPilot MCP server: session lifecycle and command orchestration

    A shallow embedding of [ardupilot_mcp_server.py].  The six tool
    functions ([arm], [disarm], [takeoff], [change_mode], [get_status],
    [get_position]) talk to a vehicle through one pymavlink connection
    object.  The connection is modelled as an *environment*: a record of
    reply functions which, given everything that happened so far, decide
    what the next library call returns or raises and what the system clock
    reads.  Running a tool threads a [World] (the call trace, the time gone
    by and the standard output) through a small state-and-exception monad
    with [try]/[except]/[finally]. *)

From Stdlib Require Import ZArith List String Ascii Bool Lia.
From Stdlib Require Import Floats.SpecFloat.
From stdpp Require Import gmap strings list fin_maps.

Set Warnings "-register-all".
Local Open Scope Z_scope.
Local Open Scope string_scope.
Local Open Scope list_scope.

(** ** Python floats: IEEE 754 binary64 *)

Module PyFloat.

Definition float : Type := spec_float.
Definition prec : Z := 53.
Definition emax : Z := 1024.

(** [float(z)] for a Python int: round to nearest, ties to even. *)
Definition of_int (z : Z) : float := binary_normalize prec emax z 0 false.

(** [x / y] on floats. *)
Definition div (x y : float) : float := SFdiv prec emax x y.

(** [x - y] on floats. *)
Definition sub (x y : float) : float := SFsub prec emax x y.

(** [x < y] on floats; false when either is a NaN. *)
Definition ltb (x y : float) : bool := SFltb x y.

(** [i / y] with [i] an int and [y] a float: the int is converted first. *)
Definition int_div_float (i : Z) (y : float) : float := div (of_int i) y.

(** [i / j] on two ints (true division).  For operands below 2^53 in
    magnitude, which covers every wire-format field of the messages used
    here, CPython computes [float(i) / float(j)]. *)
Definition int_div_int (i j : Z) : float := div (of_int i) (of_int j).

(** The literal [1e7]. *)
Definition lit_1e7 : float := of_int 10000000.

(** The float denoted by the decimal literal [m * 10^-k]: the binary64
    number nearest to that rational.  Both [m] and [10^k] are exact for the
    literals used below, so the correctly rounded quotient is that number. *)
Definition decimal (m : Z) (k : nat) : float := div (of_int m) (of_int (10 ^ Z.of_nat k)).

End PyFloat.

Abbreviation float := PyFloat.float.

(** ** Python values returned across the tool boundary *)

Inductive Value : Type :=
| VNone
| VBool (b : bool)
| VInt (z : Z)
| VFloat (f : float)
| VStr (s : string)
| VDict (d : gmap string Value).

(** ** Exceptions and outcomes *)

(** [Exception s] is an instance of (a subclass of) Python's [Exception]
    whose [str()] is [s]; [BaseException s] is one that is not (such as
    [KeyboardInterrupt]), which [except Exception] does not catch. *)
Inductive Exn : Type :=
| Exception (s : string)
| BaseException (s : string).

Definition str (e : Exn) : string :=
  match e with Exception s => s | BaseException s => s end.

Definition is_Exception (e : Exn) : bool :=
  match e with Exception _ => true | BaseException _ => false end.

Inductive Outcome (A : Type) : Type :=
| Return (a : A)
| Raise (e : Exn).
Arguments Return {A} a.
Arguments Raise {A} e.

(** ** MAVLink messages (the fields the server reads) *)

Record Heartbeat : Type := mkHeartbeat { system_status : Z }.

Record CommandAck : Type := mkCommandAck { command : Z; result : Z }.

(** Wire types: [lat], [lon], [alt], [relative_alt] are int32, the
    velocities int16 and [hdg] uint16. *)
Record GlobalPositionInt : Type := mkGlobalPositionInt {
  lat : Z; lon : Z; alt : Z; relative_alt : Z;
  vx : Z; vy : Z; vz : Z; hdg : Z
}.

Inductive Message : Type :=
| HEARTBEAT (m : Heartbeat)
| COMMAND_ACK (m : CommandAck)
| GLOBAL_POSITION_INT (m : GlobalPositionInt).

(** [mavutil.mavlink.MAV_CMD_NAV_TAKEOFF] and
    [mavutil.mavlink.MAV_RESULT_ACCEPTED] of the MAVLink common dialect. *)
Definition MAV_CMD_NAV_TAKEOFF : Z := 22.
Definition MAV_RESULT_ACCEPTED : Z := 0.

(** A numeric argument of [command_long_send]: an int or a float. *)
Inductive Num : Type :=
| NInt (z : Z)
| NFloat (f : float).

Record CommandLong : Type := mkCommandLong {
  cl_target_system : Z;
  cl_target_component : Z;
  cl_command : Z;
  cl_confirmation : Num;
  cl_param1 : Num; cl_param2 : Num; cl_param3 : Num; cl_param4 : Num;
  cl_param5 : Num; cl_param6 : Num; cl_param7 : Num
}.

(** ** Events: one per call into pymavlink or [time], with its reply *)

(** Durations of sleeps are in milliseconds; the time-outs handed to
    pymavlink are in seconds, as in the source; [ETime t] is a call of
    [time.time()] that returned the binary64 number [t], in seconds. *)
Inductive Event : Type :=
| EConnect (device : string) (source_system source_component : Z)
           (autoreconnect : bool) (r : Outcome unit)
| EWaitHeartbeat (timeout : option Z) (r : Outcome (option Message))
| EArm (r : Outcome unit)
| EMotorsArmedWait (r : Outcome unit)
| EDisarm (r : Outcome unit)
| EMotorsDisarmedWait (r : Outcome unit)
| EFlightmode (mode : string)
| EModeMapping (r : Outcome (option (gmap string Z)))
| ESetMode (mode_id : option Z) (r : Outcome unit)
| ECommandLongSend (c : CommandLong) (r : Outcome unit)
| ERecvMatch (type : string) (blocking : bool) (timeout : Z)
             (r : Outcome (option Message))
| EMessagesGet (key : string) (r : option Message)
| EMotorsArmed (r : Outcome bool)
| EClose (r : Outcome unit)
| ESleep (ms : Z)
| ETime (t : float).

(** The vehicle, the link, the library and the interpreter, as seen by
    the server.  Every reply may depend on the whole history and on the
    call's arguments.  [time_r] is what [time.time()] returns: the system
    clock is not the server's, and nothing is assumed of its readings.
    [upper] is [str.upper], Python's Unicode upper-casing; nothing is
    assumed of it either. *)
Record Env : Type := mkEnv {
  mavlink_connection_r : list Event -> Outcome unit;
  wait_heartbeat_r : list Event -> option Z -> Outcome (option Message);
  arducopter_arm_r : list Event -> Outcome unit;
  motors_armed_wait_r : list Event -> Outcome unit;
  arducopter_disarm_r : list Event -> Outcome unit;
  motors_disarmed_wait_r : list Event -> Outcome unit;
  flightmode_r : list Event -> string;
  mode_mapping_r : list Event -> Outcome (option (gmap string Z));
  set_mode_r : list Event -> option Z -> Outcome unit;
  command_long_send_r : list Event -> CommandLong -> Outcome unit;
  recv_match_r : list Event -> string -> bool -> Z -> Outcome (option Message);
  messages_get_r : list Event -> string -> option Message;
  motors_armed_r : list Event -> Outcome bool;
  close_r : list Event -> Outcome unit;
  target_system_r : list Event -> Z;
  target_component_r : list Event -> Z;
  time_r : list Event -> float;
  upper : string -> string;
  (** time taken by the call that was just appended to the history *)
  elapse : list Event -> N
}.

(** [now] counts the milliseconds that have gone by, sleeps included;
    the server never sees it. *)
Record World : Type := mkWorld {
  trace : list Event;
  now : Z;
  stdout : list string
}.

(** ** The monad: state, exceptions, and fuel for the one unbounded loop *)

Definition M (A : Type) : Type := World -> option (Outcome A * World).

Definition ret {A} (a : A) : M A := fun w => Some (Return a, w).

Definition raise {A} (e : Exn) : M A := fun w => Some (Raise e, w).

Definition out_of_fuel {A} : M A := fun _ => None.

Definition bind {A B} (m : M A) (k : A -> M B) : M B := fun w =>
  match m w with
  | None => None
  | Some (Return a, w1) => k a w1
  | Some (Raise e, w1) => Some (Raise e, w1)
  end.

(** [try: body except Exception as e: handler e] *)
Definition try_except {A} (body : M A) (handler : Exn -> M A) : M A := fun w =>
  match body w with
  | None => None
  | Some (Return a, w1) => Some (Return a, w1)
  | Some (Raise e, w1) =>
      if is_Exception e then handler e w1 else Some (Raise e, w1)
  end.

(** [try: body finally: fin].  The finaliser runs on every way out of the
    body; when it raises, its exception replaces the body's outcome. *)
Definition try_finally {A} (body : M A) (fin : M unit) : M A := fun w =>
  match body w with
  | None => None
  | Some (r, w1) =>
      match fin w1 with
      | None => None
      | Some (Return _, w2) => Some (r, w2)
      | Some (Raise e, w2) => Some (Raise e, w2)
      end
  end.

Declare Scope py_scope.
Delimit Scope py_scope with py.
Notation "'let*' x ':=' c1 'in' c2" := (bind c1 (fun x => c2))
  (at level 10, x name, c1 at level 100, c2 at level 200) : py_scope.
Notation "c1 ;; c2" := (bind c1 (fun _ => c2))
  (at level 100, c2 at level 200, right associativity) : py_scope.
Local Open Scope py_scope.

(** ** Strings *)

Definition nl : string := String (ascii_of_nat 10) EmptyString.

(** Upper-casing of the ASCII letters, other bytes left alone: what
    [str.upper] does to a name made of ASCII characters.  The simulated
    vehicles below use it. *)
Definition upper_ascii (c : ascii) : ascii :=
  let n := nat_of_ascii c in
  if ((97 <=? n) && (n <=? 122))%nat then ascii_of_nat (n - 32) else c.

Fixpoint ascii_upper (s : string) : string :=
  match s with
  | EmptyString => EmptyString
  | String c s' => String (upper_ascii c) (ascii_upper s')
  end.

(** Truth value of what [wait_heartbeat] and [recv_match] return: a
    message object is true, [None] is false. *)
Definition truthy (m : option Message) : bool :=
  match m with Some _ => true | None => false end.

(** ** Calls into pymavlink and [time] *)

Section Server.

Variable env : Env.

(** [str(x)] of a float inside an f-string (Python's shortest
    round-tripping representation), supplied by the runtime. *)
Variable float_str : float -> string.

(** Append an event and let the clock advance by [busy] plus whatever the
    call itself took. *)
Definition record (e : Event) (busy : Z) (w : World) : World :=
  let tr := trace w ++ [e] in
  {| trace := tr; now := now w + busy + Z.of_N (elapse env tr); stdout := stdout w |}.

(** A library call that returns or raises. *)
Definition call {A} (reply : list Event -> Outcome A) (ev : Outcome A -> Event) : M A :=
  fun w => let r := reply (trace w) in Some (r, record (ev r) 0 w).

(** An attribute read or another call that cannot raise. *)
Definition read {A} (reply : list Event -> A) (ev : A -> Event) : M A :=
  fun w => let r := reply (trace w) in Some (Return r, record (ev r) 0 w).

(** [print(line)] *)
Definition say (line : string) (w : World) : World :=
  {| trace := trace w; now := now w; stdout := stdout w ++ [line] |}.

Definition print (line : string) : M unit := fun w => Some (Return tt, say line w).

Definition mavlink_connection (device : string) (source_system source_component : Z)
    (autoreconnect : bool) : M unit :=
  call (mavlink_connection_r env)
       (EConnect device source_system source_component autoreconnect).

Definition wait_heartbeat (timeout : option Z) : M (option Message) :=
  call (fun h => wait_heartbeat_r env h timeout) (EWaitHeartbeat timeout).

Definition arducopter_arm : M unit := call (arducopter_arm_r env) EArm.
Definition motors_armed_wait : M unit := call (motors_armed_wait_r env) EMotorsArmedWait.
Definition arducopter_disarm : M unit := call (arducopter_disarm_r env) EDisarm.
Definition motors_disarmed_wait : M unit := call (motors_disarmed_wait_r env) EMotorsDisarmedWait.
Definition flightmode : M string := read (flightmode_r env) EFlightmode.
Definition mode_mapping : M (option (gmap string Z)) := call (mode_mapping_r env) EModeMapping.

Definition set_mode (mode_id : option Z) : M unit :=
  call (fun h => set_mode_r env h mode_id) (ESetMode mode_id).

Definition command_long_send (c : CommandLong) : M unit :=
  call (fun h => command_long_send_r env h c) (ECommandLongSend c).

Definition recv_match (type : string) (blocking : bool) (timeout : Z) : M (option Message) :=
  call (fun h => recv_match_r env h type blocking timeout) (ERecvMatch type blocking timeout).

Definition messages_get (key : string) : M (option Message) :=
  read (fun h => messages_get_r env h key) (EMessagesGet key).

Definition motors_armed : M bool := call (motors_armed_r env) EMotorsArmed.
Definition close : M unit := call (close_r env) EClose.

(** Plain attributes of the connection, read without a trace entry. *)
Definition target_system : M Z := fun w => Some (Return (target_system_r env (trace w)), w).
Definition target_component : M Z := fun w => Some (Return (target_component_r env (trace w)), w).

(** [time.time()]: seconds, as a float. *)
Definition time_time : M float := read (time_r env) ETime.

(** [time.sleep(ms / 1000)]: at least [ms] milliseconds pass. *)
Definition time_sleep (ms : Z) : M unit := fun w => Some (Return tt, record (ESleep ms) ms w).

(** [table.get(key)] on what [mode_mapping()] returned; pymavlink returns
    [None] instead of a table for an unknown vehicle type, and [None] has
    no [get]. *)
Definition dict_get (table : option (gmap string Z)) (key : string) : M (option Z) :=
  match table with
  | Some t => ret (t !! key)
  | None => raise (Exception "'NoneType' object has no attribute 'get'")
  end.

(** [msg.result], [msg.system_status]: attribute access on a message. *)
Definition attr_result (m : Message) : M Z :=
  match m with
  | COMMAND_ACK a => ret (result a)
  | _ => raise (Exception "message has no attribute 'result'")
  end.

Definition attr_system_status (m : Message) : M Z :=
  match m with
  | HEARTBEAT h => ret (system_status h)
  | _ => raise (Exception "message has no attribute 'system_status'")
  end.

(** ** The server *)

Definition connect_to_ardupilot : M unit :=
  try_except
    (print "ArduPilotに接続中... (udp:127.0.0.1:14552)";;
     mavlink_connection "udp:127.0.0.1:14552" 1 90 true)
    (fun e =>
       print ("接続エラー: " +:+ str e);;
       print "接続設定を確認してください:";;
       print "- SITL/実機が起動しているか";;
       print "- ポート番号が正しいか (5762)";;
       print "- ファイアウォール設定";;
       raise e).

Definition msg_liveness_timeout : string :=
  "エラー: ArduPilotとの接続がタイムアウトしました".

Definition msg_armed : string := "機体をアームしました。".

Definition msg_arm_error (e : Exn) : string :=
  "エラー: " +:+ str e +:+ nl +:+ "接続設定を確認してください:" +:+ nl +:+
  "- SITL/実機が起動しているか" +:+ nl +:+ "- ポート番号が正しいか (5762)" +:+ nl +:+
  "- ファイアウォール設定".

Definition arm : M Value :=
  connect_to_ardupilot;;
  try_finally
    (try_except
       (let* hb := wait_heartbeat (Some 10) in
        if negb (truthy hb) then ret (VStr msg_liveness_timeout)
        else
          arducopter_arm;;
          motors_armed_wait;;
          ret (VStr msg_armed))
       (fun e => ret (VStr (msg_arm_error e))))
    close.

Definition msg_disarmed : string := "機体をディスアームしました。".

Definition disarm : M Value :=
  connect_to_ardupilot;;
  try_finally
    (wait_heartbeat None;;
     arducopter_disarm;;
     motors_disarmed_wait;;
     ret (VStr msg_disarmed))
    close.

Definition msg_takeoff_rejected : string := "エラー: 離陸コマンドが拒否されました".

Definition msg_takeoff_started (altitude : float) : string :=
  float_str altitude +:+ "m の高度まで離陸を開始しました。".

Definition takeoff_command (ts tc : Z) (altitude : float) : CommandLong :=
  {| cl_target_system := ts;
     cl_target_component := tc;
     cl_command := MAV_CMD_NAV_TAKEOFF;
     cl_confirmation := NInt 0;
     cl_param1 := NInt 0;
     cl_param2 := NInt 0;
     cl_param3 := NInt 0;
     cl_param4 := NInt 0;
     cl_param5 := NInt 0;
     cl_param6 := NInt 0;
     cl_param7 := NFloat altitude |}.

Definition takeoff (altitude : float) : M Value :=
  connect_to_ardupilot;;
  try_finally
    (let* hb := wait_heartbeat (Some 10) in
     if negb (truthy hb) then ret (VStr msg_liveness_timeout)
     else
       let* current_mode := flightmode in
       (if negb (String.eqb current_mode "GUIDED") then
          let* table := mode_mapping in
          let* mode_id := dict_get table "GUIDED" in
          set_mode mode_id;;
          time_sleep 1000
        else ret tt);;
       arducopter_arm;;
       motors_armed_wait;;
       time_sleep 1000;;
       let* ts := target_system in
       let* tc := target_component in
       command_long_send (takeoff_command ts tc altitude);;
       let* msg := recv_match "COMMAND_ACK" true 10 in
       match msg with
       | None => ret (VStr msg_takeoff_rejected)
       | Some m =>
           let* res := attr_result m in
           if negb (res =? MAV_RESULT_ACCEPTED)%Z then ret (VStr msg_takeoff_rejected)
           else ret (VStr (msg_takeoff_started altitude))
       end)
    close.

Definition msg_invalid_mode (mode : string) : string := "無効なモードです: " +:+ mode.

Definition msg_mode_changed (name : string) : string :=
  "モードを " +:+ name +:+ " に変更しました。".

Definition msg_mode_unconfirmed (observed : string) : string :=
  "警告: モード変更を確認できませんでした (現在のモード: " +:+ observed +:+ ")".

(** The confirmation loop of [change_mode]:
    [while time.time() - start_time < 5: ...; time.sleep(0.1)].
    The condition is computed as Python does: a binary64 subtraction of the
    two readings, compared with 5.  [Some v] is a [return v] from inside the
    loop, [None] the loop running to its end.  One unit of fuel is spent per
    evaluation of the loop condition; the loop has no bound of its own, it
    goes on for as long as the clock reads less than 5 s past the start. *)
Fixpoint confirm_loop (fuel : nat) (start_time : float) (mode : string) : M (option Value) :=
  match fuel with
  | O => out_of_fuel
  | S fuel' =>
      let* t := time_time in
      if PyFloat.ltb (PyFloat.sub t start_time) (PyFloat.of_int 5) then
        let* current := flightmode in
        if String.eqb current (upper env mode) then
          ret (Some (VStr (msg_mode_changed (upper env mode))))
        else
          time_sleep 100;;
          confirm_loop fuel' start_time mode
      else ret None
  end.

Definition change_mode (fuel : nat) (mode : string) : M Value :=
  connect_to_ardupilot;;
  try_finally
    (wait_heartbeat None;;
     let* table := mode_mapping in
     let* mode_id := dict_get table (upper env mode) in
     match mode_id with
     | None => ret (VStr (msg_invalid_mode mode))
     | Some id =>
         set_mode (Some id);;
         let* start_time := time_time in
         let* returned := confirm_loop fuel start_time mode in
         match returned with
         | Some v => ret v
         | None =>
             let* observed := flightmode in
             ret (VStr (msg_mode_unconfirmed observed))
         end
     end)
    close.

Definition get_status : M Value :=
  connect_to_ardupilot;;
  try_finally
    (wait_heartbeat None;;
     let* heartbeat := messages_get "HEARTBEAT" in
     let* armed := motors_armed in
     let* mode := flightmode in
     let* status :=
       match heartbeat with
       | Some hb => let* s := attr_system_status hb in ret (VInt s)
       | None => ret VNone
       end in
     ret (VDict (<["armed" := VBool armed]>
                (<["mode" := VStr mode]>
                (<["system_status" := status]> ∅)))))
    close.

Definition msg_no_position : string := "位置情報がありません".

Definition position_record (p : GlobalPositionInt) : Value :=
  VDict (<["latitude" := VFloat (PyFloat.int_div_float (lat p) PyFloat.lit_1e7)]>
        (<["longitude" := VFloat (PyFloat.int_div_float (lon p) PyFloat.lit_1e7)]>
        (<["altitude" := VFloat (PyFloat.int_div_int (alt p) 1000)]>
        (<["relative_alt" := VFloat (PyFloat.int_div_int (relative_alt p) 1000)]>
        (<["heading" := VFloat (PyFloat.int_div_int (hdg p) 100)]>
        (<["velocity" := VDict (<["x" := VInt (vx p)]>
                               (<["y" := VInt (vy p)]>
                               (<["z" := VInt (vz p)]> ∅)))]> ∅)))))).

Definition get_position : M Value :=
  connect_to_ardupilot;;
  try_finally
    (wait_heartbeat None;;
     let* position := recv_match "GLOBAL_POSITION_INT" true 5 in
     match position with
     | Some (GLOBAL_POSITION_INT p) => ret (position_record p)
     | Some _ => raise (Exception "message has no attribute 'lat'")
     | None => ret (VDict (<["error" := VStr msg_no_position]> ∅))
     end)
    close.

(** The six tools registered with [@mcp.tool()]. *)
Inductive Op : Type :=
| Arm
| Disarm
| Takeoff (altitude : float)
| ChangeMode (mode : string)
| GetStatus
| GetPosition.

Definition invoke (fuel : nat) (op : Op) : M Value :=
  match op with
  | Arm => arm
  | Disarm => disarm
  | Takeoff altitude => takeoff altitude
  | ChangeMode mode => change_mode fuel mode
  | GetStatus => get_status
  | GetPosition => get_position
  end.

End Server.

(** * Runs and their observations *)

(** [runs m w evs r]: started in [w], [m] finishes with outcome [r] after
    making exactly the calls [evs]. *)
Definition runs {A} (m : M A) (w : World) (evs : list Event) (r : Outcome A) : Prop :=
  exists w', m w = Some (r, w') /\ trace w' = trace w ++ evs.

(** The connection the server opens. *)
Definition connect_event (r : Outcome unit) : Event :=
  EConnect "udp:127.0.0.1:14552" 1 90 true r.

Definition acquired (e : Event) : bool :=
  match e with EConnect _ _ _ _ (Return _) => true | _ => false end.

Definition is_close (e : Event) : bool :=
  match e with EClose _ => true | _ => false end.

Definition is_connect (e : Event) : bool :=
  match e with EConnect _ _ _ _ _ => true | _ => false end.

(** Sessions acquired and sessions released during a run. *)
Definition acquisitions (evs : list Event) : nat := length (List.filter acquired evs).
Definition releases (evs : list Event) : nat := length (List.filter is_close evs).

(** Commands sent to the vehicle. *)
Definition is_command (e : Event) : bool :=
  match e with
  | EArm _ | EDisarm _ | ESetMode _ _ | ECommandLongSend _ _ => true
  | _ => false
  end.

Definition raised_by {A} (r : Outcome A) : list Exn :=
  match r with Return _ => [] | Raise e => [e] end.

(** The exception a call raised, if it did. *)
Definition raised (e : Event) : list Exn :=
  match e with
  | EConnect _ _ _ _ r | EArm r | EMotorsArmedWait r | EDisarm r
  | EMotorsDisarmedWait r | ESetMode _ r | ECommandLongSend _ r | EClose r => raised_by r
  | EWaitHeartbeat _ r | ERecvMatch _ _ _ r => raised_by r
  | EModeMapping r => raised_by r
  | EMotorsArmed r => raised_by r
  | EFlightmode _ | EMessagesGet _ _ | ESleep _ | ETime _ => []
  end.

(** All exceptions raised by calls during a run, oldest first. *)
Definition failures (evs : list Event) : list Exn := concat (map raised evs).

(** What the confirmation loop of [change_mode] may do, as seen from
    outside: a sequence of polls, each made after a clock reading [t] with
    [t - start < 5] in binary64, each miss followed by a 100 ms sleep, ended
    by a poll that sees [target] ([true]) or by a clock reading for which
    [t - start < 5] is false ([false]). *)
Inductive Confirming (start : float) (target : string) : list Event -> bool -> Prop :=
| confirm_timeout t :
    PyFloat.ltb (PyFloat.sub t start) (PyFloat.of_int 5) = false ->
    Confirming start target [ETime t] false
| confirm_hit t :
    PyFloat.ltb (PyFloat.sub t start) (PyFloat.of_int 5) = true ->
    Confirming start target [ETime t; EFlightmode target] true
| confirm_miss t seen rest ok :
    PyFloat.ltb (PyFloat.sub t start) (PyFloat.of_int 5) = true ->
    seen <> target ->
    Confirming start target rest ok ->
    Confirming start target (ETime t :: EFlightmode seen :: ESleep 100 :: rest) ok.

(** Number of polls of the flight mode in a list of events. *)
Definition polls (evs : list Event) : nat :=
  length (List.filter (fun e => match e with EFlightmode _ => true | _ => false end) evs).

(** The take-off sequence in the words of the specification, to be
    compared with what [takeoff] does: once liveness is observed, a mode
    change to GUIDED and a pause of about 1 s if and only if the current mode
    is not GUIDED; then arm, wait for armed, pause about 1 s; then the
    take-off command [c]; then a wait of up to 10 s for the acknowledgement;
    then the release.  The arguments are what the vehicle answered. *)
Definition guided_switch (current_mode : string) (table : gmap string Z) : list Event :=
  if String.eqb current_mode "GUIDED" then []
  else [EModeMapping (Return (Some table));
        ESetMode (table !! "GUIDED") (Return tt);
        ESleep 1000].

(** The calls up to the take-off command. *)
Definition takeoff_prelude (hb : Message) (current_mode : string) (table : gmap string Z)
    : list Event :=
  [connect_event (Return tt);
   EWaitHeartbeat (Some 10) (Return (Some hb));
   EFlightmode current_mode]
  ++ guided_switch current_mode table ++
  [EArm (Return tt);
   EMotorsArmedWait (Return tt);
   ESleep 1000].

Definition takeoff_sequence (hb : Message) (current_mode : string) (table : gmap string Z)
    (c : CommandLong) (ack : option Message) : list Event :=
  takeoff_prelude hb current_mode table ++
  [ECommandLongSend c (Return tt);
   ERecvMatch "COMMAND_ACK" true 10 (Return ack);
   EClose (Return tt)].

(** The last byte of a string, which tells the messages apart. *)
Fixpoint last_byte (s : string) : option ascii :=
  match s with
  | EmptyString => None
  | String c s' => match s' with EmptyString => Some c | _ => last_byte s' end
  end.

(** Calls made between acquiring and releasing a session. *)
Definition inner (e : Event) : bool := negb (is_connect e || is_close e).

(** A computation that neither opens nor closes a connection. *)
Definition Quiet {A} (m : M A) : Prop :=
  forall w r w', m w = Some (r, w') ->
  exists evs, trace w' = trace w ++ evs /\ forallb inner evs = true.

(** The calls of the confirmation loop. *)
Definition polling (e : Event) : bool :=
  match e with ETime _ | EFlightmode _ | ESleep _ => true | _ => false end.

(** ** Simulated vehicles

    Deterministic stand-ins for the transport, used to exercise the model
    on concrete runs. *)

Definition sleeps (h : list Event) : nat :=
  length (List.filter (fun e => match e with ESleep _ => true | _ => false end) h).

(** The time spent in [time.sleep], in ms. *)
Fixpoint slept (evs : list Event) : Z :=
  match evs with
  | [] => 0
  | ESleep ms :: rest => ms + slept rest
  | _ :: rest => slept rest
  end.

(** A system clock that stood at [epoch] ms when the history began and
    has advanced by [pace] ms for every call made and by the length of
    every sleep; [time.time()] returns the binary64 number nearest to that
    count of milliseconds divided by 1000. *)
Definition wall_clock (epoch : Z) (pace : N) (h : list Event) : float :=
  PyFloat.div (PyFloat.of_int (epoch + Z.of_N pace * Z.of_nat (length h) + slept h))
              (PyFloat.of_int 1000).

(** A flight mode that changes from [before] to [after] once [n] sleeps
    have gone by. *)
Definition settles (n : nat) (before after : string) (h : list Event) : string :=
  if (n <=? sleeps h)%nat then after else before.

(** A vehicle that answers every call, taking [pace] ms for each; the
    system clock stands at [epoch] ms at first and [str.upper] is the ASCII
    one.
    [heartbeat] is what the liveness wait yields, [modes] what
    [mode_mapping()] gives, [mode_of] the flight mode it reports,
    [command_reply] its reaction to an arm or disarm command, [ack] and
    [position] what [recv_match] yields for the two message kinds and
    [cached] the last heartbeat it kept. *)
Definition vehicle (epoch : Z) (pace : N) (heartbeat : option Message)
    (modes : option (gmap string Z)) (mode_of : list Event -> string)
    (command_reply : Outcome unit) (ack position cached : option Message) : Env :=
  {| mavlink_connection_r := fun _ => Return tt;
     wait_heartbeat_r := fun _ _ => Return heartbeat;
     arducopter_arm_r := fun _ => command_reply;
     motors_armed_wait_r := fun _ => Return tt;
     arducopter_disarm_r := fun _ => command_reply;
     motors_disarmed_wait_r := fun _ => Return tt;
     flightmode_r := mode_of;
     mode_mapping_r := fun _ => Return modes;
     set_mode_r := fun _ _ => Return tt;
     command_long_send_r := fun _ _ => Return tt;
     recv_match_r := fun _ type _ _ =>
       if String.eqb type "COMMAND_ACK" then Return ack else Return position;
     messages_get_r := fun _ _ => cached;
     motors_armed_r := fun _ => Return true;
     close_r := fun _ => Return tt;
     target_system_r := fun _ => 1;
     target_component_r := fun _ => 1;
     time_r := wall_clock epoch pace;
     upper := ascii_upper;
     elapse := fun _ => pace |}.

Definition copter_modes : gmap string Z :=
  <["STABILIZE" := 0]> (<["GUIDED" := 4]> (<["LOITER" := 5]> ∅)).

(** A mode table without a "GUIDED" entry. *)
Definition rover_modes : gmap string Z :=
  <["MANUAL" := 0]> (<["HOLD" := 4]> ∅).

Definition beat : Message := HEARTBEAT (mkHeartbeat 4).

Definition accepted : Message := COMMAND_ACK (mkCommandAck MAV_CMD_NAV_TAKEOFF MAV_RESULT_ACCEPTED).


Definition sample_position : GlobalPositionInt :=
  {| lat := 123456780; lon := 1398765430; alt := 10000; relative_alt := 2500;
     vx := 12; vy := -7; vz := 0; hdg := 9000 |}.

(** A copter in STABILIZE that follows a mode change after 200 ms. *)
Definition sitl : Env :=
  vehicle 0 5 (Some beat) (Some copter_modes) (settles 2 "STABILIZE" "GUIDED") (Return tt)
    (Some accepted) (Some (GLOBAL_POSITION_INT sample_position)) (Some beat).


(** A copter whose arm and disarm commands fail on the link. *)
Definition sitl_lossy : Env :=
  vehicle 0 5 (Some beat) (Some copter_modes) (settles 2 "STABILIZE" "GUIDED")
    (Raise (Exception "link lost"))
    (Some accepted) (Some (GLOBAL_POSITION_INT sample_position)) (Some beat).

(** A copter that sends no position and keeps no heartbeat. *)
Definition sitl_silent : Env :=
  vehicle 0 5 (Some beat) (Some copter_modes) (settles 2 "STABILIZE" "GUIDED") (Return tt)
    (Some accepted) None None.

(** A copter from which no heartbeat arrives in time. *)
Definition sitl_mute : Env :=
  vehicle 0 5 None (Some copter_modes) (settles 2 "STABILIZE" "GUIDED") (Return tt)
    (Some accepted) None None.

(** A vehicle in MANUAL whose mode table has no "GUIDED". *)
Definition rover : Env :=
  vehicle 0 5 (Some beat) (Some rover_modes) (fun _ => "MANUAL") (Return tt)
    (Some accepted) (Some (GLOBAL_POSITION_INT sample_position)) (Some beat).

(** A copter that answers at once and never leaves STABILIZE; its clock
    stands at 3.008 s. *)
Definition sitl_stuck : Env :=
  vehicle 3008 0 (Some beat) (Some copter_modes) (fun _ => "STABILIZE") (Return tt)
    (Some accepted) (Some (GLOBAL_POSITION_INT sample_position)) (Some beat).

(** The keys of the two records the read-only tools return. *)
Definition status_fields : gset string := {["armed"; "mode"; "system_status"]}.

Definition position_fields : gset string :=
  {["latitude"; "longitude"; "altitude"; "relative_alt"; "heading"; "velocity"]}.

Definition start : World := {| trace := []; now := 0; stdout := [] |}.

(** A stand-in for [str] on floats that prints 15.0. *)
Definition repr_15 (f : float) : string := "15.0".

(** The claim that no failure after acquisition leaves a tool call as an
    exception. *)
Definition faults_contained (env : Env) (float_str : float -> string) (fuel : nat)
    (op : Op) (w : World) : Prop :=
  forall evs r, runs (invoke env float_str fuel op) w evs r ->
    acquisitions evs = 1%nat -> exists v, r = Return v.

(** * What the tools may do, print and return

    Vocabulary for the properties that hold of every tool at once. *)

(** [Keeps R m]: every finished run of [m] takes a world to one related
    to it by [R]. *)
Definition Keeps (R : World -> World -> Prop) {A} (m : M A) : Prop :=
  forall w r w', m w = Some (r, w') -> R w w'.

(** The run only added calls satisfying [P]. *)
Definition emitting (P : Event -> Prop) (w w' : World) : Prop :=
  exists evs, trace w' = trace w ++ evs /\ Forall P evs.

(** Nothing was printed. *)
Definition same_stdout (w w' : World) : Prop := stdout w' = stdout w.

(** A run that took at least as long as it slept. *)
Definition outlasts_sleep (w w' : World) : Prop :=
  exists evs, trace w' = trace w ++ evs /\ now w + slept evs <= now w'.

(** Opening the connection, with the arguments [connect_to_ardupilot]
    passes, and closing it. *)
Definition opens_or_closes (e : Event) : Prop :=
  match e with
  | EConnect device source_system source_component autoreconnect _ =>
      device = "udp:127.0.0.1:14552" /\ source_system = 1 /\ source_component = 90 /\
      autoreconnect = true
  | EClose _ => True
  | _ => False
  end.

(** The calls each tool is written to make, with the arguments it passes. *)
Definition may_call (op : Op) (e : Event) : Prop :=
  opens_or_closes e \/
  match op with
  | Arm =>
      match e with
      | EWaitHeartbeat timeout _ => timeout = Some 10
      | EArm _ | EMotorsArmedWait _ => True
      | _ => False
      end
  | Disarm =>
      match e with
      | EWaitHeartbeat timeout _ => timeout = None
      | EDisarm _ | EMotorsDisarmedWait _ => True
      | _ => False
      end
  | Takeoff altitude =>
      match e with
      | EWaitHeartbeat timeout _ => timeout = Some 10
      | EFlightmode _ | EModeMapping _ | ESetMode _ _ => True
      | EArm _ | EMotorsArmedWait _ => True
      | ESleep ms => ms = 1000
      | ECommandLongSend c _ =>
          cl_command c = 22 /\ cl_confirmation c = NInt 0 /\
          cl_param1 c = NInt 0 /\ cl_param2 c = NInt 0 /\ cl_param3 c = NInt 0 /\
          cl_param4 c = NInt 0 /\ cl_param5 c = NInt 0 /\ cl_param6 c = NInt 0 /\
          cl_param7 c = NFloat altitude
      | ERecvMatch type blocking timeout _ =>
          type = "COMMAND_ACK" /\ blocking = true /\ timeout = 10
      | _ => False
      end
  | ChangeMode _ =>
      match e with
      | EWaitHeartbeat timeout _ => timeout = None
      | EModeMapping _ | ETime _ | EFlightmode _ => True
      | ESetMode mode_id _ => mode_id <> None
      | ESleep ms => ms = 100
      | _ => False
      end
  | GetStatus =>
      match e with
      | EWaitHeartbeat timeout _ => timeout = None
      | EMessagesGet key _ => key = "HEARTBEAT"
      | EMotorsArmed _ | EFlightmode _ => True
      | _ => False
      end
  | GetPosition =>
      match e with
      | EWaitHeartbeat timeout _ => timeout = None
      | ERecvMatch type blocking timeout _ =>
          type = "GLOBAL_POSITION_INT" /\ blocking = true /\ timeout = 5
      | _ => False
      end
  end.

(** What [connect_to_ardupilot] prints: one line before the attempt, five
    more in its [except Exception] handler. *)
Definition connect_banner : string := "ArduPilotに接続中... (udp:127.0.0.1:14552)".

Definition connect_diagnostics (e : Exn) : list string :=
  ["接続エラー: " +:+ str e;
   "接続設定を確認してください:";
   "- SITL/実機が起動しているか";
   "- ポート番号が正しいか (5762)";
   "- ファイアウォール設定"].

(** [Yields P m]: whatever [m] returns satisfies [P]. *)
Definition Yields {A} (P : A -> Prop) (m : M A) : Prop :=
  forall w r w', m w = Some (r, w') -> forall a, r = Return a -> P a.

(** The return annotation of each tool: [-> dict] for the two read-only
    tools, [-> str] for the others. *)
Definition declared (op : Op) (v : Value) : Prop :=
  match op with
  | GetStatus | GetPosition => exists d, v = VDict d
  | _ => exists s, v = VStr s
  end.

Definition first_byte (s : string) : option ascii :=
  match s with EmptyString => None | String c _ => Some c end.

(** What [None.get(...)] raises: [mode_mapping()] gives [None] for a
    vehicle type it has no table for. *)
Definition no_get : Exn := Exception "'NoneType' object has no attribute 'get'".

(** Two outcomes that agree on the world they leave and on the result,
    except that the one may return [a1] where the other returns [a2]. *)
Definition same_but (a1 a2 : Value) (x y : option (Outcome Value * World)) : Prop :=
  match x, y with
  | Some (r1, w1), Some (r2, w2) =>
      w1 = w2 /\ (r1 = r2 \/ (r1 = Return a1 /\ r2 = Return a2))
  | None, None => True
  | _, _ => False
  end.

(** Sessions are opened and closed in turn: no session is opened while
    one is open, none is closed while none is open, and at the end none is
    left open.  [opened] tells whether one is open before [evs]. *)
Fixpoint bracketed (opened : bool) (evs : list Event) : bool :=
  match evs with
  | [] => negb opened
  | e :: rest =>
      if acquired e then negb opened && bracketed true rest
      else if is_close e then opened && bracketed false rest
      else bracketed opened rest
  end.

(** Tool calls handled one after the other, each to its outcome (a value
    or an exception) before the next begins. *)
Fixpoint serve (env : Env) (float_str : float -> string) (fuel : nat) (ops : list Op)
    (w : World) : option (list (Outcome Value) * World) :=
  match ops with
  | [] => Some ([], w)
  | op :: rest =>
      match invoke env float_str fuel op w with
      | None => None
      | Some (r, w1) =>
          match serve env float_str fuel rest w1 with
          | None => None
          | Some (rs, w2) => Some (r :: rs, w2)
          end
      end
  end.

(** A vehicle of a type pymavlink has no mode table for. *)
Definition unidentified : Env :=
  vehicle 0 5 (Some beat) None (fun _ => "STABILIZE") (Return tt)
    (Some accepted) (Some (GLOBAL_POSITION_INT sample_position)) (Some beat).

(** * Proof machinery *)

(** ** Inversion of the monad's combinators *)

Lemma bind_inv {A B} (m : M A) (k : A -> M B) w r w' :
  bind m k w = Some (r, w') ->
  (exists a w1, m w = Some (Return a, w1) /\ k a w1 = Some (r, w')) \/
  (exists e, m w = Some (Raise e, w') /\ r = Raise e).
Proof.
  unfold bind. destruct (m w) as [[[a|e] w1]|] eqn:Em; intros H.
  - left. eauto.
  - right. inversion H; subst. eauto.
  - discriminate.
Qed.

Lemma try_finally_inv {A} (body : M A) (fin : M unit) w r w' :
  try_finally body fin w = Some (r, w') ->
  exists rb w1 rf, body w = Some (rb, w1) /\ fin w1 = Some (rf, w') /\
    r = match rf with Return _ => rb | Raise e => Raise e end.
Proof.
  unfold try_finally. destruct (body w) as [[rb w1]|] eqn:Eb; [|discriminate].
  destruct (fin w1) as [[[u|e] w2]|] eqn:Ef; intros H; inversion H; subst;
    do 3 eexists; (split; [reflexivity|split; [eassumption|reflexivity]]).
Qed.

Lemma try_except_inv {A} (body : M A) (h : Exn -> M A) w r w' :
  try_except body h w = Some (r, w') ->
  (exists a, body w = Some (Return a, w') /\ r = Return a) \/
  (exists e, body w = Some (Raise e, w') /\ is_Exception e = false /\ r = Raise e) \/
  (exists e w1, body w = Some (Raise e, w1) /\ is_Exception e = true /\
     h e w1 = Some (r, w')).
Proof.
  unfold try_except. destruct (body w) as [[[a|e] w1]|] eqn:Eb; intros H; [| |discriminate].
  - inversion H; subst; eauto.
  - destruct (is_Exception e) eqn:E.
    + right; right; eauto 6.
    + inversion H; subst; right; left; eauto.
Qed.

Section Calls.

Variable env : Env.

Lemma call_inv {A} (reply : list Event -> Outcome A) ev w r w' :
  call env reply ev w = Some (r, w') ->
  reply (trace w) = r /\ w' = record env (ev r) 0 w.
Proof. unfold call. intros H. injection H as <- <-. auto. Qed.

Lemma read_inv {A} (reply : list Event -> A) ev w r w' :
  read env reply ev w = Some (r, w') ->
  r = Return (reply (trace w)) /\ w' = record env (ev (reply (trace w))) 0 w.
Proof. unfold read. intros H. injection H as <- <-. auto. Qed.

Lemma ret_inv {A} (a : A) w r w' : ret a w = Some (r, w') -> r = Return a /\ w' = w.
Proof. unfold ret. intros H. injection H as <- <-. auto. Qed.

Lemma raise_inv {A} e w (r : Outcome A) w' :
  raise e w = Some (r, w') -> r = Raise e /\ w' = w.
Proof. unfold raise. intros H. injection H as <- <-. auto. Qed.

Lemma print_inv s w r w' :
  print s w = Some (r, w') ->
  r = Return tt /\ w' = say s w.
Proof. unfold print. intros H. injection H as <- <-. auto. Qed.

Lemma time_time_inv w r w' :
  time_time env w = Some (r, w') ->
  r = Return (time_r env (trace w)) /\
  w' = record env (ETime (time_r env (trace w))) 0 w.
Proof. unfold time_time. apply read_inv. Qed.

Lemma time_sleep_inv ms w r w' :
  time_sleep env ms w = Some (r, w') ->
  r = Return tt /\ w' = record env (ESleep ms) ms w.
Proof. unfold time_sleep. intros H. injection H as <- <-. auto. Qed.

Lemma target_system_inv w r w' :
  target_system env w = Some (r, w') ->
  r = Return (target_system_r env (trace w)) /\ w' = w.
Proof. unfold target_system. intros H. injection H as <- <-. auto. Qed.

Lemma target_component_inv w r w' :
  target_component env w = Some (r, w') ->
  r = Return (target_component_r env (trace w)) /\ w' = w.
Proof. unfold target_component. intros H. injection H as <- <-. auto. Qed.

End Calls.

(** ** Symbolic execution of a finished run *)

Ltac resolve_eq H :=
  lazymatch type of H with
  | ?x = ?y =>
      first [ is_var x; subst x
            | is_var y; subst y
            | discriminate H
            | progress (injection H as H); resolve_eq H
            | idtac ]
  end.

Ltac split_eqs H tac :=
  let H1 := fresh "H" in let H2 := fresh "H" in
  apply tac in H; destruct H as [H1 H2]; resolve_eq H2; resolve_eq H1.

(** [exec H] takes [H : m w = Some (r, w')] apart along the structure of
    [m], one goal per path through the code. *)
Ltac exec H :=
  lazymatch type of H with
  | bind _ _ _ = Some _ =>
      let H1 := fresh "H" in let H2 := fresh "H" in
      apply bind_inv in H; destruct H as [(? & ? & H1 & H2) | (? & H1 & H2)];
      [ exec H1; exec H2 | exec H1; resolve_eq H2 ]
  | try_finally _ _ _ = Some _ =>
      let H1 := fresh "H" in let H2 := fresh "H" in let H3 := fresh "H" in
      apply try_finally_inv in H; destruct H as (? & ? & ? & H1 & H2 & H3);
      exec H1; exec H2; cbv iota beta in H3; resolve_eq H3
  | try_except _ _ _ = Some _ =>
      let H1 := fresh "H" in let H2 := fresh "H" in let H3 := fresh "H" in
      apply try_except_inv in H;
      destruct H as [(? & H1 & H2) | [(? & H1 & H2 & H3) | (? & ? & H1 & H2 & H3)]];
      [ exec H1; resolve_eq H2 | exec H1; resolve_eq H3 | exec H1; exec H3 ]
  | call _ _ _ _ = Some _ =>
      let E := fresh "E" in let H2 := fresh "H" in
      apply call_inv in H; destruct H as [E H2]; resolve_eq H2
  | read _ _ _ _ = Some _ => split_eqs H read_inv
  | ret _ _ = Some _ => split_eqs H ret_inv
  | raise _ _ = Some _ => split_eqs H raise_inv
  | print _ _ = Some _ => split_eqs H print_inv
  | time_time _ _ = Some _ => split_eqs H time_time_inv
  | time_sleep _ _ _ = Some _ => split_eqs H time_sleep_inv
  | target_system _ _ = Some _ => split_eqs H target_system_inv
  | target_component _ _ = Some _ => split_eqs H target_component_inv
  | (if ?b then _ else _) _ = Some _ =>
      let E := fresh "E" in destruct b eqn:E; exec H
  | (match ?x with _ => _ end) _ = Some _ =>
      first [ is_var x; destruct x | let E := fresh "E" in destruct x eqn:E ]; exec H
  | dict_get _ _ _ = Some _ => unfold dict_get in H; exec H
  | attr_result _ _ = Some _ => unfold attr_result in H; exec H
  | attr_system_status _ _ = Some _ => unfold attr_system_status in H; exec H
  | connect_to_ardupilot _ _ = Some _ => unfold connect_to_ardupilot in H; exec H
  | mavlink_connection _ _ _ _ _ _ = Some _ => unfold mavlink_connection in H; exec H
  | wait_heartbeat _ _ _ = Some _ => unfold wait_heartbeat in H; exec H
  | arducopter_arm _ _ = Some _ => unfold arducopter_arm in H; exec H
  | motors_armed_wait _ _ = Some _ => unfold motors_armed_wait in H; exec H
  | arducopter_disarm _ _ = Some _ => unfold arducopter_disarm in H; exec H
  | motors_disarmed_wait _ _ = Some _ => unfold motors_disarmed_wait in H; exec H
  | flightmode _ _ = Some _ => unfold flightmode in H; exec H
  | mode_mapping _ _ = Some _ => unfold mode_mapping in H; exec H
  | set_mode _ _ _ = Some _ => unfold set_mode in H; exec H
  | command_long_send _ _ _ = Some _ => unfold command_long_send in H; exec H
  | recv_match _ _ _ _ _ = Some _ => unfold recv_match in H; exec H
  | messages_get _ _ _ = Some _ => unfold messages_get in H; exec H
  | motors_armed _ _ = Some _ => unfold motors_armed in H; exec H
  | close _ _ = Some _ => unfold close in H; exec H
  | _ => idtac
  end.

(** Turn [Htr : trace w' = trace w ++ evs], with [w'] computed, into the
    value of [evs]. *)
Ltac tidy Htr :=
  cbn [trace now stdout record say] in *;
  repeat rewrite <- app_assoc in Htr; cbn [app] in Htr;
  first [ apply app_inv_head in Htr
        | rewrite <- (app_nil_r (trace _)) in Htr at 1; apply app_inv_head in Htr ];
  resolve_eq Htr.

(** ** Termination *)

Lemma terminates_bind {A B} (m : M A) (k : A -> M B) w :
  is_Some (m w) ->
  (forall a w1, m w = Some (Return a, w1) -> is_Some (k a w1)) ->
  is_Some (bind m k w).
Proof.
  intros [[[a|e] w1] Hm] Hk; unfold bind; rewrite Hm; [auto | eauto].
Qed.

Lemma terminates_try_finally {A} (body : M A) (fin : M unit) w :
  is_Some (body w) ->
  (forall r w1, body w = Some (r, w1) -> is_Some (fin w1)) ->
  is_Some (try_finally body fin w).
Proof.
  intros [[r w1] Hb] Hf. unfold try_finally. rewrite Hb.
  destruct (Hf _ _ Hb) as [[[u|e] w2] ->]; eauto.
Qed.

Lemma terminates_try_except {A} (body : M A) (h : Exn -> M A) w :
  is_Some (body w) ->
  (forall e w1, body w = Some (Raise e, w1) -> is_Some (h e w1)) ->
  is_Some (try_except body h w).
Proof.
  intros [[[a|e] w1] Hb] Hh; unfold try_except; rewrite Hb; [eauto|].
  destruct (is_Exception e); eauto.
Qed.

(** Every construct except the confirmation loop terminates outright. *)
Ltac terminate :=
  lazymatch goal with
  | |- is_Some (bind _ _ _) => apply terminates_bind; [terminate | intros ? ? ?; terminate]
  | |- is_Some (try_finally _ _ _) =>
      apply terminates_try_finally; [terminate | intros ? ? ?; terminate]
  | |- is_Some (try_except _ _ _) =>
      apply terminates_try_except; [terminate | intros ? ? ?; terminate]
  | |- is_Some ((if ?b then _ else _) _) => destruct b; terminate
  | |- is_Some ((match ?x with _ => _ end) _) => destruct x; terminate
  | |- is_Some (confirm_loop _ _ _ _ _) => idtac
  | |- is_Some (connect_to_ardupilot _ _) => unfold connect_to_ardupilot; terminate
  | |- is_Some (dict_get _ _ _) => unfold dict_get; terminate
  | |- is_Some (attr_result _ _) => unfold attr_result; terminate
  | |- is_Some (attr_system_status _ _) => unfold attr_system_status; terminate
  | |- is_Some _ => eexists; reflexivity
  end.

Lemma confirm_loop_S env fuel start_time mode :
  confirm_loop env (S fuel) start_time mode =
  (let* t := time_time env in
   if PyFloat.ltb (PyFloat.sub t start_time) (PyFloat.of_int 5) then
     let* current := flightmode env in
     if String.eqb current (upper env mode) then
       ret (Some (VStr (msg_mode_changed (upper env mode))))
     else
       time_sleep env 100;;
       confirm_loop env fuel start_time mode
   else ret None)%py.
Proof. reflexivity. Qed.

(** ** Calls made between acquiring and releasing a session *)

Lemma Quiet_silent {A} (m : M A) :
  (forall w r w', m w = Some (r, w') -> trace w' = trace w) -> Quiet m.
Proof.
  intros Hm w r w' H. exists []. rewrite app_nil_r. split; [eauto | reflexivity].
Qed.

Lemma Quiet_ret {A} (a : A) : Quiet (ret a).
Proof. apply Quiet_silent. intros w r w' H. apply ret_inv in H as [_ ->]. reflexivity. Qed.

Lemma Quiet_raise {A} e : Quiet (@raise A e).
Proof. apply Quiet_silent. intros w r w' H. apply raise_inv in H as [_ ->]. reflexivity. Qed.

Lemma Quiet_print s : Quiet (print s).
Proof. apply Quiet_silent. intros w r w' H. apply print_inv in H as [_ ->]. reflexivity. Qed.

Lemma Quiet_out_of_fuel {A} : Quiet (@out_of_fuel A).
Proof. intros w r w' H. discriminate. Qed.

Lemma Quiet_bind {A B} (m : M A) (k : A -> M B) :
  Quiet m -> (forall a, Quiet (k a)) -> Quiet (bind m k).
Proof.
  intros Hm Hk w r w' H. apply bind_inv in H as [(a & w1 & H1 & H2) | (e & H1 & _)].
  - destruct (Hm _ _ _ H1) as (evs1 & E1 & Q1).
    destruct (Hk a _ _ _ H2) as (evs2 & E2 & Q2).
    exists (evs1 ++ evs2). rewrite E2, E1, <- app_assoc, forallb_app, Q1, Q2. auto.
  - eauto.
Qed.

Lemma Quiet_try_except {A} (body : M A) (h : Exn -> M A) :
  Quiet body -> (forall e, Quiet (h e)) -> Quiet (try_except body h).
Proof.
  intros Hb Hh w r w' H.
  apply try_except_inv in H as [(a & H1 & _) | [(e & H1 & _) | (e & w1 & H1 & _ & H2)]];
    eauto.
  destruct (Hb _ _ _ H1) as (evs1 & E1 & Q1).
  destruct (Hh e _ _ _ H2) as (evs2 & E2 & Q2).
  exists (evs1 ++ evs2). rewrite E2, E1, <- app_assoc, forallb_app, Q1, Q2. auto.
Qed.

Section QuietCalls.

Variable env : Env.

Lemma Quiet_call {A} (reply : list Event -> Outcome A) ev :
  (forall r, inner (ev r) = true) -> Quiet (call env reply ev).
Proof.
  intros Hev w r w' H. apply call_inv in H as [_ ->].
  exists [ev r]. cbn. rewrite Hev. auto.
Qed.

Lemma Quiet_read {A} (reply : list Event -> A) ev :
  (forall r, inner (ev r) = true) -> Quiet (read env reply ev).
Proof.
  intros Hev w r w' H. apply read_inv in H as [_ ->].
  eexists [_]. cbn. rewrite Hev. auto.
Qed.

Lemma Quiet_time_time : Quiet (time_time env).
Proof. intros w r w' H. apply time_time_inv in H as [_ ->]. eexists [_]. cbn. auto. Qed.

Lemma Quiet_time_sleep ms : Quiet (time_sleep env ms).
Proof. intros w r w' H. apply time_sleep_inv in H as [_ ->]. eexists [_]. cbn. auto. Qed.

Lemma Quiet_target_system : Quiet (target_system env).
Proof.
  apply Quiet_silent. intros w r w' H. apply target_system_inv in H as [_ ->]. reflexivity.
Qed.

Lemma Quiet_target_component : Quiet (target_component env).
Proof.
  apply Quiet_silent. intros w r w' H. apply target_component_inv in H as [_ ->]. reflexivity.
Qed.

End QuietCalls.

Create HintDb quiet.
#[local] Hint Resolve Quiet_ret Quiet_raise Quiet_print Quiet_out_of_fuel Quiet_time_time
  Quiet_time_sleep Quiet_target_system Quiet_target_component : quiet.

Ltac quiet :=
  lazymatch goal with
  | |- Quiet (bind _ _) => apply Quiet_bind; [quiet | intros ?; quiet]
  | |- Quiet (try_except _ _) => apply Quiet_try_except; [quiet | intros ?; quiet]
  | |- Quiet (if ?b then _ else _) => destruct b; quiet
  | |- Quiet (match ?x with _ => _ end) => destruct x; quiet
  | |- Quiet (call _ _ _) => apply Quiet_call; intros ?; reflexivity
  | |- Quiet (read _ _ _) => apply Quiet_read; intros ?; reflexivity
  | |- Quiet (dict_get _ _) => unfold dict_get; quiet
  | |- Quiet (attr_result _) => unfold attr_result; quiet
  | |- Quiet (attr_system_status _) => unfold attr_system_status; quiet
  | |- Quiet (wait_heartbeat _ _) => unfold wait_heartbeat; quiet
  | |- Quiet (arducopter_arm _) => unfold arducopter_arm; quiet
  | |- Quiet (motors_armed_wait _) => unfold motors_armed_wait; quiet
  | |- Quiet (arducopter_disarm _) => unfold arducopter_disarm; quiet
  | |- Quiet (motors_disarmed_wait _) => unfold motors_disarmed_wait; quiet
  | |- Quiet (flightmode _) => unfold flightmode; quiet
  | |- Quiet (mode_mapping _) => unfold mode_mapping; quiet
  | |- Quiet (set_mode _ _) => unfold set_mode; quiet
  | |- Quiet (command_long_send _ _) => unfold command_long_send; quiet
  | |- Quiet (recv_match _ _ _ _) => unfold recv_match; quiet
  | |- Quiet (messages_get _ _) => unfold messages_get; quiet
  | |- Quiet (motors_armed _) => unfold motors_armed; quiet
  | |- _ => auto with quiet
  end.

Lemma Quiet_confirm_loop env fuel start_time mode :
  Quiet (confirm_loop env fuel start_time mode).
Proof.
  induction fuel as [|fuel IH]; [apply Quiet_out_of_fuel|].
  rewrite confirm_loop_S. quiet.
Qed.

#[local] Hint Resolve Quiet_confirm_loop : quiet.

Lemma filter_inner_nil (p : Event -> bool) evs :
  (forall e, inner e = true -> p e = false) ->
  forallb inner evs = true -> List.filter p evs = [].
Proof.
  intros Hp. induction evs as [|e evs IH]; cbn; [reflexivity|].
  intros H. apply andb_prop in H as [He Hevs]. rewrite (Hp e He). auto.
Qed.

Lemma inner_not_released evs : forallb inner evs = true -> releases evs = 0%nat.
Proof.
  intros H. unfold releases. rewrite (filter_inner_nil is_close); [reflexivity| |exact H].
  intros e. unfold inner. destruct e; cbn; congruence.
Qed.

Lemma inner_not_acquired evs : forallb inner evs = true -> acquisitions evs = 0%nat.
Proof.
  intros H. unfold acquisitions. rewrite (filter_inner_nil acquired); [reflexivity| |exact H].
  intros e. unfold inner. destruct e; cbn; congruence.
Qed.

(** The scoped acquisition shared by the six tools:
    [conn = connect_to_ardupilot(); try: body finally: conn.close()]. *)
Lemma session_scope {A} env (body : M A) w r w' :
  Quiet body ->
  (connect_to_ardupilot env;; try_finally body (close env))%py w = Some (r, w') ->
  exists evs, trace w' = trace w ++ evs /\
    ((exists e, evs = [connect_event (Raise e)] /\ r = Raise e) \/
     (exists mid rc, evs = connect_event (Return tt) :: mid ++ [EClose rc] /\
        forallb inner mid = true)).
Proof.
  intros Hq H. exec H; cbn [trace record say] in *.
  - destruct (Hq _ _ _ H) as (mid & E' & Q). cbn [trace record say] in *.
    exists (connect_event (Return tt) :: mid ++ [EClose x2]). split.
    + rewrite E', <- !app_assoc. destruct x1. reflexivity.
    + right. eauto.
  - eexists. split; [reflexivity|]. left. eauto.
  - eexists. split; [reflexivity|]. left. eauto.
Qed.

Lemma invoke_quiet_scope env float_str fuel op :
  exists body : M Value,
    Quiet body /\
    invoke env float_str fuel op =
    (connect_to_ardupilot env;; try_finally body (close env))%py.
Proof.
  destruct op; cbn [invoke];
    [ unfold arm | unfold disarm | unfold takeoff | unfold change_mode
    | unfold get_status | unfold get_position ];
    eexists; (split; [|reflexivity]); quiet.
Qed.

(** Every tool but [change_mode], which has the only loop, comes back
    once the calls it makes do. *)
Lemma invoke_terminates env float_str fuel op w :
  (forall mode, op <> ChangeMode mode) -> is_Some (invoke env float_str fuel op w).
Proof.
  intros Hop.
  destruct op; try (exfalso; eapply Hop; reflexivity); cbn [invoke];
    [ unfold arm | unfold disarm | unfold takeoff
    | unfold get_status | unfold get_position ];
    terminate.
Qed.

Lemma invoke_runs env float_str fuel op w :
  (forall mode, op <> ChangeMode mode) ->
  exists evs r, runs (invoke env float_str fuel op) w evs r.
Proof.
  intros Hop. destruct (invoke_terminates env float_str fuel op w Hop) as [[r w'] H].
  destruct (invoke_quiet_scope env float_str fuel op) as (body & Hq & Hop').
  pose proof H as H'. rewrite Hop' in H'.
  destruct (session_scope _ _ _ _ _ Hq H') as (evs & Htr & _).
  exists evs, r, w'. auto.
Qed.

Lemma releases_app evs1 evs2 : releases (evs1 ++ evs2) = (releases evs1 + releases evs2)%nat.
Proof. unfold releases. rewrite List.filter_app, length_app. reflexivity. Qed.

Lemma acquisitions_app evs1 evs2 :
  acquisitions (evs1 ++ evs2) = (acquisitions evs1 + acquisitions evs2)%nat.
Proof. unfold acquisitions. rewrite List.filter_app, length_app. reflexivity. Qed.

(** * Session discipline and failure handling *)

(** C1. Every tool call that acquires a session releases it exactly once,
    whatever way it ends: the calls of a finished run are either the failed
    connection attempt alone (nothing acquired, nothing released, the
    exception propagates), or the successful connection, then calls that
    neither open nor close anything, then one [close] as the last call.
    The outcome [r] is arbitrary: a normal return, an early error string,
    or a propagated exception. *)
Theorem release_exactly_once env float_str fuel op w :
  forall evs r, runs (invoke env float_str fuel op) w evs r ->
    releases evs = acquisitions evs /\
    ((exists e, evs = [connect_event (Raise e)] /\ r = Raise e /\
        acquisitions evs = 0%nat) \/
     (exists mid rc, evs = connect_event (Return tt) :: mid ++ [EClose rc] /\
        acquisitions evs = 1%nat /\
        releases mid = 0%nat /\ acquisitions mid = 0%nat)).
Proof.
  intros evs r (w' & H & Htr).
  destruct (invoke_quiet_scope env float_str fuel op) as (body & Hq & Hop).
  rewrite Hop in H.
  destruct (session_scope _ _ _ _ _ Hq H) as (evs' & Htr' & Hshape).
  rewrite Htr' in Htr. apply app_inv_head in Htr. subst evs'.
  destruct Hshape as [(e & -> & ->) | (mid & rc & -> & Hmid)].
  - split; [reflexivity|]. left. exists e. auto.
  - pose proof (inner_not_released _ Hmid) as Hr.
    pose proof (inner_not_acquired _ Hmid) as Ha.
    assert (Hone : acquisitions (connect_event (Return tt) :: mid ++ [EClose rc]) = 1%nat).
    { change (connect_event (Return tt) :: mid ++ [EClose rc])
        with ([connect_event (Return tt)] ++ mid ++ [EClose rc]).
      rewrite !acquisitions_app, Ha. reflexivity. }
    split.
    + rewrite Hone.
      change (connect_event (Return tt) :: mid ++ [EClose rc])
        with ([connect_event (Return tt)] ++ mid ++ [EClose rc]).
      rewrite !releases_app, Hr. reflexivity.
    + right. exists mid, rc. auto.
Qed.

(** ** The confirmation loop *)

Lemma confirm_loop_spec env fuel : forall start_time mode w r w',
  confirm_loop env fuel start_time mode w = Some (r, w') ->
  exists evs ok,
    trace w' = trace w ++ evs /\
    Confirming start_time (upper env mode) evs ok /\
    r = Return (if ok then Some (VStr (msg_mode_changed (upper env mode))) else None).
Proof.
  induction fuel as [|fuel IH]; intros start_time mode w r w' H; [discriminate|].
  rewrite confirm_loop_S in H. exec H; cbn [trace now record say] in *.
  - apply String.eqb_eq in E0.
    exists [ETime (time_r env (trace w)); EFlightmode (upper env mode)], true.
    rewrite E0, <- app_assoc. repeat split. constructor. exact E.
  - apply String.eqb_neq in E0.
    match goal with
    | Hrec : confirm_loop _ _ _ _ _ = Some _ |- _ =>
        apply IH in Hrec; destruct Hrec as (rest & ok & Htr & Hc & ->)
    end.
    cbn [trace record] in Htr.
    eexists (ETime (time_r env (trace w)) :: EFlightmode _ :: ESleep 100 :: rest), ok.
    rewrite Htr, <- !app_assoc. repeat split.
    constructor; [exact E | exact E0 | exact Hc].
  - exists [ETime (time_r env (trace w))], false.
    repeat split. constructor. exact E.
Qed.

Lemma Confirming_polling start target evs ok :
  Confirming start target evs ok -> forallb polling evs = true.
Proof. induction 1; cbn; auto. Qed.

Lemma polling_failures evs : forallb polling evs = true -> failures evs = [].
Proof.
  induction evs as [|e evs IH]; [reflexivity|]. cbn. intros H.
  apply andb_prop in H as [He Hevs]. unfold failures in *. cbn.
  rewrite (IH Hevs). destruct e; try discriminate; reflexivity.
Qed.

Lemma polling_commands evs : forallb polling evs = true -> List.filter is_command evs = [].
Proof.
  induction evs as [|e evs IH]; [reflexivity|]. cbn. intros H.
  apply andb_prop in H as [He Hevs]. rewrite (IH Hevs).
  destruct e; try discriminate; reflexivity.
Qed.

Lemma failures_app evs1 evs2 : failures (evs1 ++ evs2) = failures evs1 ++ failures evs2.
Proof. unfold failures. rewrite map_app, concat_app. reflexivity. Qed.

Lemma failures_cons e evs : failures (e :: evs) = raised e ++ failures evs.
Proof. reflexivity. Qed.

Ltac unfold_op :=
  cbn [invoke] in *;
  unfold arm, disarm, takeoff, change_mode, get_status, get_position in *.

(** Replace a run of the confirmation loop by what [confirm_loop_spec]
    says about it. *)
Ltac loop_inv :=
  match goal with
  | Hl : confirm_loop _ _ _ _ _ = Some _ |- _ =>
      let rest := fresh "loop" in let ok := fresh "ok" in
      let Hl1 := fresh "Hloop" in let Hc := fresh "Hconf" in let Hr := fresh "Hr" in
      apply confirm_loop_spec in Hl;
      destruct Hl as (rest & ok & Hl1 & Hc & Hr);
      cbn [trace now stdout record say] in Hl1;
      cbn [trace now stdout record say] in *;
      rewrite Hl1 in *; clear Hl1; resolve_eq Hr
  end.

Ltac destruct_outcomes :=
  repeat match goal with
         | x : Outcome _ |- _ => destruct x
         | x : unit |- _ => destruct x
         end.

(** A closed run on a simulated vehicle, by evaluation. *)
Ltac run_concrete :=
  eexists; split; [vm_compute; reflexivity | vm_compute; reflexivity].

(** For a goal [runs m w ?evs ?r /\ _]: evaluate the run, keep it as
    [Hrun], and go on with the rest. *)
Ltac hold_run Hrun :=
  match goal with
  | |- ?R /\ _ => assert (Hrun : R) by run_concrete
  end;
  split; [exact Hrun|].

(** C1, on a concrete run: a mode change on the simulated copter opens one
    session and closes one. *)
Lemma release_exactly_once_witness :
  exists evs r,
    runs (invoke sitl repr_15 51 (ChangeMode "guided")) start evs r /\
    releases evs = 1%nat /\ acquisitions evs = 1%nat.
Proof.
  eexists _, _. hold_run Hrun.
  destruct (release_exactly_once sitl repr_15 51 (ChangeMode "guided") start
              _ _ Hrun) as [Heq _].
  split; [rewrite Heq|]; vm_compute; reflexivity.
Defined.

(** The three ways out, each on a concrete run and each with one release:
    a normal return, an early return of an error string, and an exception
    that propagates. *)
Example exit_paths :
  (exists evs, runs (invoke sitl repr_15 51 Arm) start evs (Return (VStr msg_armed)) /\
               releases evs = 1%nat) /\
  (exists evs, runs (invoke sitl_mute repr_15 51 (Takeoff (PyFloat.of_int 15))) start evs
                    (Return (VStr msg_liveness_timeout)) /\
               releases evs = 1%nat) /\
  (exists evs, runs (invoke sitl_lossy repr_15 51 Disarm) start evs
                    (Raise (Exception "link lost")) /\
               releases evs = 1%nat).
Proof. repeat split; eexists; hold_run Hrun; reflexivity. Qed.

(** [arm] on the vehicle whose commands fail returns the diagnostic text
    instead of raising. *)
Example arm_reports_failure :
  exists evs,
    runs (invoke sitl_lossy repr_15 51 Arm) start evs
         (Return (VStr (msg_arm_error (Exception "link lost")))).
Proof. eexists. run_concrete. Qed.

(** C2, as stated, fails: on a vehicle whose disarm command fails on the
    link, [disarm] acquires a session and then lets the exception out. *)
Lemma disarm_fault_escapes : ~ faults_contained sitl_lossy repr_15 51 Disarm start.
Proof.
  intros Hc.
  assert (Hrun : exists evs,
             runs (invoke sitl_lossy repr_15 51 Disarm) start evs
                  (Raise (Exception "link lost")) /\
             acquisitions evs = 1%nat).
  { eexists. hold_run Hrun. vm_compute. reflexivity. }
  destruct Hrun as (evs & Hrun & Hacq).
  destruct (Hc evs _ Hrun Hacq) as [v Hv]. discriminate Hv.
Qed.

(** C2, amended.  A failure of [close] itself leaves every tool as an
    exception.  Only [arm] has a handler: when the session is released
    cleanly, a failure of class [Exception] raised by a call of [arm] comes
    back as the error string built from it (one not of that class still
    propagates).  The other five tools have no handler: the failure raised
    last by a call is the exception the tool raises, after the release. *)
Theorem failures_caught_or_propagated env float_str fuel op w :
  forall evs r, runs (invoke env float_str fuel op) w evs r ->
    acquisitions evs = 1%nat ->
    (forall e, last evs = Some (EClose (Raise e)) -> r = Raise e) /\
    match op with
    | Arm =>
        last evs = Some (EClose (Return tt)) ->
        forall e, last (failures evs) = Some e ->
          if is_Exception e then r = Return (VStr (msg_arm_error e)) else r = Raise e
    | _ => forall e, last (failures evs) = Some e -> r = Raise e
    end.
Proof.
  intros evs r (w' & H & Htr) Hacq.
  destruct op; unfold_op; exec H; try loop_inv; tidy Htr;
    try discriminate Hacq; clear Hacq; destruct_outcomes;
    try match goal with
        | Hc : Confirming _ _ _ _ |- _ =>
            apply Confirming_polling, polling_failures in Hc
        end;
    (split;
     [ intros exn He; rewrite ?app_comm_cons, ?last_app in He; cbn in He; congruence | ]).
  1-16: intros Hcl exn He; cbn in Hcl; try discriminate Hcl; cbn in He;
    try discriminate He; injection He as <-;
    match goal with Hx : is_Exception _ = _ |- _ => rewrite Hx end; reflexivity.
  all: intros exn He; rewrite ?failures_cons, ?failures_app in He;
    try match goal with Hc : failures _ = [] |- _ => rewrite Hc in He end;
    cbn in He; try discriminate He; injection He as <-; reflexivity.
Qed.

(** C2 amended, on a concrete run: the link failure of the disarm command
    is what [disarm] raises. *)
Lemma failures_caught_or_propagated_witness :
  exists evs r,
    runs (invoke sitl_lossy repr_15 51 Disarm) start evs r /\
    acquisitions evs = 1%nat /\
    last (failures evs) = Some (Exception "link lost") /\
    r = Raise (Exception "link lost").
Proof.
  eexists _, _. hold_run Hrun.
  assert (Hacq : acquisitions
                   [connect_event (Return tt);
                    EWaitHeartbeat None (Return (Some beat));
                    EDisarm (Raise (Exception "link lost"));
                    EClose (Return tt)] = 1%nat) by reflexivity.
  split; [exact Hacq|]. split; [reflexivity|].
  exact (proj2 (failures_caught_or_propagated sitl_lossy repr_15 51 Disarm start
                  _ _ Hrun Hacq) _ eq_refl).
Defined.

(** ** [takeoff] *)

Lemma last_byte_app p s : s <> "" -> last_byte (p +:+ s) = last_byte s.
Proof.
  intros Hs. induction p as [|c p IH]; [reflexivity|].
  rewrite <- IH. change (String c p +:+ s) with (String c (p +:+ s)).
  destruct (p +:+ s) eqn:E; [|reflexivity].
  destruct p as [|a p']; [exfalso; apply Hs; exact E | discriminate E].
Qed.



(** Split [Hin : In e evs], for an explicit list [evs], into its cases. *)
Ltac in_events Hin :=
  cbn [In] in Hin;
  repeat (destruct Hin as [Hin | Hin]; [try discriminate Hin | ]);
  try contradiction.

Ltac in_list := cbn [In]; repeat (first [left; reflexivity | right]).

Lemma takeoff_runs env float_str altitude w :
  exists evs r, runs (takeoff env float_str altitude) w evs r.
Proof. apply (invoke_runs env float_str 0 (Takeoff altitude) w). discriminate. Qed.



(** C4. A run of [takeoff] in which liveness was observed and nothing
    failed makes exactly the calls of [takeoff_sequence], in that order:
    after the heartbeat the flight mode is read; a mode change to the
    table's "GUIDED" entry and a 1000 ms pause follow if and only if that
    mode is not "GUIDED"; then arm, wait for armed, pause 1000 ms; then one
    command; then the wait for COMMAND_ACK with a 10 s time-out; then the
    release.  The command is MAV_CMD_NAV_TAKEOFF (22) with the altitude in
    param7 and zero in the confirmation and in param1 to param6, addressed
    to the system and component the connection names at that moment. *)
Theorem takeoff_order env float_str altitude w :
  (exists evs r, runs (takeoff env float_str altitude) w evs r) /\
  forall evs r, runs (takeoff env float_str altitude) w evs r ->
    forall hb v,
      In (EWaitHeartbeat (Some 10) (Return (Some hb))) evs ->
      r = Return v ->
      exists current_mode table c ack,
        evs = takeoff_sequence hb current_mode table c ack /\
        cl_command c = 22 /\
        cl_confirmation c = NInt 0 /\
        cl_param1 c = NInt 0 /\ cl_param2 c = NInt 0 /\ cl_param3 c = NInt 0 /\
        cl_param4 c = NInt 0 /\ cl_param5 c = NInt 0 /\ cl_param6 c = NInt 0 /\
        cl_param7 c = NFloat altitude /\
        cl_target_system c =
          target_system_r env (trace w ++ takeoff_prelude hb current_mode table) /\
        cl_target_component c =
          target_component_r env (trace w ++ takeoff_prelude hb current_mode table).
Proof.
  split; [apply takeoff_runs|].
  intros evs r (w' & H & Htr). unfold takeoff in H. exec H; tidy Htr; destruct_outcomes.
  all: intros hb v Hin Hr; try discriminate Hr; in_events Hin; injection Hin as ->.
  all: try match goal with
           | Hx : negb (truthy _) = true |- _ => cbn in Hx; discriminate Hx
           end.
  all: rewrite <- ?app_assoc in *; cbn [app] in *.
  all: unfold takeoff_sequence, takeoff_prelude, guided_switch.
  all: match goal with
       | Hx : negb (?m =? "GUIDED")%string = true |- _ =>
           apply (proj1 (negb_true_iff _)) in Hx; exists m; rewrite Hx
       | Hx : negb (?m =? "GUIDED")%string = false |- _ =>
           apply (proj1 (negb_false_iff _)) in Hx; exists m; rewrite Hx
       end.
  all: match goal with
       | |- context [EModeMapping (Return (Some ?g))] => exists g
       | |- _ => exists ∅
       end.
  all: eexists _, _; split; [reflexivity|].
  all: cbn [app]; repeat split; reflexivity.
Qed.

(** C4 on a concrete run: the copter in STABILIZE is switched to GUIDED
    (mode 4), armed, and sent the take-off command for 15.0 m. *)
Lemma takeoff_order_witness :
  exists evs r,
    runs (takeoff sitl repr_15 (PyFloat.of_int 15)) start evs r /\
    exists current_mode table c ack,
      evs = takeoff_sequence beat current_mode table c ack /\
      cl_command c = 22 /\
      cl_confirmation c = NInt 0 /\
      cl_param1 c = NInt 0 /\ cl_param2 c = NInt 0 /\ cl_param3 c = NInt 0 /\
      cl_param4 c = NInt 0 /\ cl_param5 c = NInt 0 /\ cl_param6 c = NInt 0 /\
      cl_param7 c = NFloat (PyFloat.of_int 15) /\
      cl_target_system c =
        target_system_r sitl (trace start ++ takeoff_prelude beat current_mode table) /\
      cl_target_component c =
        target_component_r sitl (trace start ++ takeoff_prelude beat current_mode table).
Proof.
  eexists _, _. hold_run Hrun.
  refine (proj2 (takeoff_order sitl repr_15 (PyFloat.of_int 15) start) _ _ Hrun
            beat _ _ eq_refl).
  in_list.
Defined.

(** The same run, call by call. *)
Example takeoff_order_run :
  runs (takeoff sitl repr_15 (PyFloat.of_int 15)) start
    [connect_event (Return tt);
     EWaitHeartbeat (Some 10) (Return (Some beat));
     EFlightmode "STABILIZE";
     EModeMapping (Return (Some copter_modes));
     ESetMode (Some 4) (Return tt);
     ESleep 1000;
     EArm (Return tt);
     EMotorsArmedWait (Return tt);
     ESleep 1000;
     ECommandLongSend
       {| cl_target_system := 1; cl_target_component := 1; cl_command := 22;
          cl_confirmation := NInt 0;
          cl_param1 := NInt 0; cl_param2 := NInt 0; cl_param3 := NInt 0;
          cl_param4 := NInt 0; cl_param5 := NInt 0; cl_param6 := NInt 0;
          cl_param7 := NFloat (PyFloat.of_int 15) |} (Return tt);
     ERecvMatch "COMMAND_ACK" true 10 (Return (Some accepted));
     EClose (Return tt)]
    (Return (VStr "15.0m の高度まで離陸を開始しました。")).
Proof. run_concrete. Qed.

Lemma started_not_invalid float_str altitude :
  msg_takeoff_started float_str altitude <> msg_invalid_mode "GUIDED".
Proof.
  intros H. apply (f_equal last_byte) in H. unfold msg_takeoff_started in H.
  rewrite last_byte_app in H by discriminate. vm_compute in H. discriminate H.
Qed.

(** C10. In [takeoff] the mode table is consulted only when the mode read
    is not "GUIDED", and what the lookup of "GUIDED" gives goes straight
    into [set_mode]: when the table has no such entry the very next call is
    [set_mode(None)], and the run never ends with an invalid-mode
    message. *)
Theorem takeoff_guided_unguarded env float_str altitude w :
  (exists evs r, runs (takeoff env float_str altitude) w evs r) /\
  forall evs r, runs (takeoff env float_str altitude) w evs r ->
    forall table,
      In (EModeMapping (Return (Some table))) evs ->
      table !! "GUIDED" = None ->
      r <> Return (VStr (msg_invalid_mode "GUIDED")) /\
      exists hb current_mode reply after,
        current_mode <> "GUIDED" /\
        evs = [connect_event (Return tt);
               EWaitHeartbeat (Some 10) (Return (Some hb));
               EFlightmode current_mode;
               EModeMapping (Return (Some table));
               ESetMode None reply] ++ after.
Proof.
  split; [apply takeoff_runs|].
  intros evs r (w' & H & Htr). unfold takeoff in H. exec H; tidy Htr.
  all: intros table Hin Hnone; in_events Hin; injection Hin as <-.
  all: rewrite Hnone; destruct_outcomes.
  all: (split;
        [ intros Hr; try discriminate Hr; injection Hr as Hr;
          first [ apply started_not_invalid in Hr; contradiction
                | vm_compute in Hr; discriminate Hr ]
        | ]).
  all: rewrite <- ?app_assoc in *; cbn [app] in *.
  all: match goal with
       | Hx : negb (truthy ?x) = false |- _ =>
           destruct x as [hb|]; [clear Hx | discriminate Hx]
       end.
  all: match goal with
       | Hx : negb (?m =? "GUIDED")%string = true |- _ =>
           apply (proj1 (negb_true_iff _)), String.eqb_neq in Hx;
           exists hb, m; eexists _, _; split; [exact Hx | reflexivity]
       end.
Qed.

(** C10 on a concrete run: a vehicle in MANUAL whose table has no "GUIDED"
    is sent [set_mode(None)]. *)
Lemma takeoff_guided_unguarded_witness :
  exists evs r,
    runs (takeoff rover repr_15 (PyFloat.of_int 15)) start evs r /\
    rover_modes !! "GUIDED" = None /\
    exists hb current_mode reply after,
      current_mode <> "GUIDED" /\
      evs = [connect_event (Return tt);
             EWaitHeartbeat (Some 10) (Return (Some hb));
             EFlightmode current_mode;
             EModeMapping (Return (Some rover_modes));
             ESetMode None reply] ++ after.
Proof.
  eexists _, _. hold_run Hrun.
  assert (Hnone : rover_modes !! "GUIDED" = None) by (vm_compute; reflexivity).
  split; [exact Hnone|].
  refine (proj2 (proj2 (takeoff_guided_unguarded rover repr_15 (PyFloat.of_int 15) start)
                   _ _ Hrun rover_modes _ Hnone)).
  in_list.
Defined.

(** ** [change_mode] *)

Lemma In_after_polling e loop rest :
  forallb polling loop = true -> polling e = false -> In e (loop ++ rest) -> In e rest.
Proof.
  intros Hl He Hin. apply in_app_or in Hin as [Hin|Hin]; [|exact Hin].
  rewrite forallb_forall in Hl. rewrite (Hl _ Hin) in He. discriminate He.
Qed.





(** The loop's test on literals: 8.008 - 3.008 is 5629499534213119 * 2^-50,
    one unit in the last place below 5, so the test still holds after what
    reads as five seconds; it fails 100 ms later, and on an exact 5. *)
Example guard_literals :
  PyFloat.sub (PyFloat.decimal 8008 3) (PyFloat.decimal 3008 3) =
    S754_finite false 5629499534213119 (-50) /\
  PyFloat.ltb (PyFloat.sub (PyFloat.decimal 8008 3) (PyFloat.decimal 3008 3))
              (PyFloat.of_int 5) = true /\
  PyFloat.ltb (PyFloat.sub (PyFloat.decimal 8108 3) (PyFloat.decimal 3008 3))
              (PyFloat.of_int 5) = false /\
  PyFloat.ltb (PyFloat.sub (PyFloat.of_int 5) (PyFloat.of_int 0))
              (PyFloat.of_int 5) = false.
Proof. repeat split; vm_compute; reflexivity. Qed.



(** The other way out of the loop: a copter that never leaves STABILIZE
    and answers at once is polled every 100 ms until the warning names
    STABILIZE.  Its clock read 3.008 when the loop began; 50 sleeps later
    it reads 8.008, and 8.008 - 3.008 is still less than 5 in binary64, so
    the loop polls and sleeps a 51st time. *)
Example change_mode_unconfirmed :
  exists evs,
    runs (change_mode sitl_stuck 60 "guided") start evs
         (Return (VStr (msg_mode_unconfirmed "STABILIZE"))) /\
    polls evs = 52%nat /\ sleeps evs = 51%nat /\
    PyFloat.ltb (PyFloat.sub (PyFloat.decimal 8008 3) (PyFloat.decimal 3008 3))
                (PyFloat.of_int 5) = true.
Proof. eexists. hold_run Hrun. repeat split; vm_compute; reflexivity. Qed.

(** C6. When the mode table has no entry for the upper-cased name,
    [change_mode] returns the invalid-mode message (quoting the name as
    given) and its only calls are the connection, the heartbeat wait, the
    table lookup and the release: no command goes to the vehicle. *)
Theorem change_mode_invalid env fuel mode w :
  forall evs r, runs (change_mode env fuel mode) w evs r ->
    forall table,
      In (EModeMapping (Return (Some table))) evs ->
      table !! upper env mode = None ->
      last evs = Some (EClose (Return tt)) ->
      r = Return (VStr (msg_invalid_mode mode)) /\
      List.filter is_command evs = [] /\
      exists hb,
        evs = [connect_event (Return tt); EWaitHeartbeat None (Return hb);
               EModeMapping (Return (Some table)); EClose (Return tt)].
Proof.
  intros evs r (w' & H & Htr). unfold change_mode in H.
  exec H; try loop_inv; tidy Htr; destruct_outcomes.
  all: intros table Hin Hnone Hlast; in_events Hin.
  all: try (injection Hin as <-; congruence).
  all: try (eapply In_after_polling in Hin;
            [ | eapply Confirming_polling; eassumption | reflexivity ]; in_events Hin).
  all: injection Hin as <-; cbn in Hlast; try discriminate Hlast.
  split; [reflexivity|]. split; [reflexivity|]. eexists; reflexivity.
Qed.

(** C6 on a concrete run: "bogus" against the copter's table. *)
Lemma change_mode_invalid_witness :
  exists evs r,
    runs (change_mode sitl 51 "bogus") start evs r /\
    copter_modes !! upper sitl "bogus" = None /\
    r = Return (VStr (msg_invalid_mode "bogus")) /\
    List.filter is_command evs = [].
Proof.
  eexists _, _. hold_run Hrun.
  assert (Hnone : copter_modes !! upper sitl "bogus" = None) by (vm_compute; reflexivity).
  split; [exact Hnone|].
  destruct (change_mode_invalid sitl 51 "bogus" start _ _ Hrun copter_modes)
    as (Hr & Hcmd & _);
    [in_list | exact Hnone | reflexivity | ].
  split; [exact Hr | exact Hcmd].
Defined.

(** ** [get_position] and [get_status] *)

Lemma get_position_runs env w : exists evs r, runs (get_position env) w evs r.
Proof. apply (invoke_runs env (fun _ => "") 0 GetPosition w). discriminate. Qed.

Lemma get_status_runs env w : exists evs r, runs (get_status env) w evs r.
Proof. apply (invoke_runs env (fun _ => "") 0 GetStatus w). discriminate. Qed.

(** The literals of the example are what they look like: 10.0 and 90.0 are
    the integers 10 and 90, and 12.345678 is 6949998855054516 * 2^-49. *)
Example decimal_literals :
  PyFloat.decimal 100 1 = PyFloat.of_int 10 /\
  PyFloat.decimal 900 1 = PyFloat.of_int 90 /\
  PyFloat.decimal 12345678 6 = S754_finite false 6949998855054516 (-49).
Proof. repeat split; vm_compute; reflexivity. Qed.

(** C7. When the position wait yields a GLOBAL_POSITION_INT message [p],
    [get_position] returns a record with exactly the six fields, in which
    latitude and longitude are the binary64 quotients of the integer fields
    by 1e7, altitude and relative altitude those by 1000, heading that by
    100, and the velocity components are the raw integers.  For
    lat = 123456780, alt = 10000 and hdg = 9000 these quotients are the
    floats written 12.345678, 10.0 and 90.0. *)
Theorem get_position_conversions env w :
  (exists evs r, runs (get_position env) w evs r) /\
  forall evs r, runs (get_position env) w evs r ->
    forall p,
      In (ERecvMatch "GLOBAL_POSITION_INT" true 5
            (Return (Some (GLOBAL_POSITION_INT p)))) evs ->
      last evs = Some (EClose (Return tt)) ->
      exists d,
        r = Return (VDict d) /\
        dom d = position_fields /\
        d !! "latitude" =
          Some (VFloat (PyFloat.div (PyFloat.of_int (lat p)) (PyFloat.of_int 10000000))) /\
        d !! "longitude" =
          Some (VFloat (PyFloat.div (PyFloat.of_int (lon p)) (PyFloat.of_int 10000000))) /\
        d !! "altitude" =
          Some (VFloat (PyFloat.div (PyFloat.of_int (alt p)) (PyFloat.of_int 1000))) /\
        d !! "relative_alt" =
          Some (VFloat (PyFloat.div (PyFloat.of_int (relative_alt p)) (PyFloat.of_int 1000))) /\
        d !! "heading" =
          Some (VFloat (PyFloat.div (PyFloat.of_int (hdg p)) (PyFloat.of_int 100))) /\
        d !! "velocity" =
          Some (VDict (<["x" := VInt (vx p)]>
                      (<["y" := VInt (vy p)]> (<["z" := VInt (vz p)]> ∅)))) /\
        (lat p = 123456780 ->
         d !! "latitude" = Some (VFloat (PyFloat.decimal 12345678 6))) /\
        (alt p = 10000 -> d !! "altitude" = Some (VFloat (PyFloat.decimal 100 1))) /\
        (hdg p = 9000 -> d !! "heading" = Some (VFloat (PyFloat.decimal 900 1))).
Proof.
  split; [apply get_position_runs|].
  intros evs r (w' & H & Htr). unfold get_position in H.
  exec H; tidy Htr; destruct_outcomes.
  all: intros p Hin Hlast; in_events Hin; injection Hin as <-.
  all: cbn in Hlast; try discriminate Hlast.
  eexists. split; [reflexivity|].
  split. { unfold position_fields. rewrite !dom_insert_L, dom_empty_L. set_solver. }
  repeat (split; [reflexivity|]).
  repeat split; intros Hp; unfold position_record;
    repeat (rewrite lookup_insert_ne by discriminate); rewrite lookup_insert_eq;
    unfold PyFloat.int_div_float, PyFloat.int_div_int; rewrite Hp; vm_compute; reflexivity.
Qed.

(** C7 on a concrete run: the example of the specification. *)
Lemma get_position_conversions_witness :
  exists evs r,
    runs (get_position sitl) start evs r /\
    lat sample_position = 123456780 /\
    alt sample_position = 10000 /\
    hdg sample_position = 9000 /\
    exists d,
      r = Return (VDict d) /\
      d !! "latitude" = Some (VFloat (PyFloat.decimal 12345678 6)) /\
      d !! "altitude" = Some (VFloat (PyFloat.decimal 100 1)) /\
      d !! "heading" = Some (VFloat (PyFloat.decimal 900 1)).
Proof.
  eexists _, _. hold_run Hrun. repeat (split; [reflexivity|]).
  destruct (proj2 (get_position_conversions sitl start) _ _ Hrun sample_position)
    as (d & Hr & _ & _ & _ & _ & _ & _ & _ & Hlat & Halt & Hhdg);
    [in_list | reflexivity | ].
  exists d. split; [exact Hr|].
  split; [exact (Hlat eq_refl)|]. split; [exact (Halt eq_refl) | exact (Hhdg eq_refl)].
Defined.

(** C8. When the 5 s wait for GLOBAL_POSITION_INT yields nothing,
    [get_position] returns the record whose only field is "error"; it does
    not raise. *)
Theorem get_position_no_telemetry env w :
  (exists evs r, runs (get_position env) w evs r) /\
  forall evs r, runs (get_position env) w evs r ->
    In (ERecvMatch "GLOBAL_POSITION_INT" true 5 (Return None)) evs ->
    last evs = Some (EClose (Return tt)) ->
    r = Return (VDict (<["error" := VStr msg_no_position]> ∅)) /\
    exists hb,
      evs = [connect_event (Return tt); EWaitHeartbeat None (Return hb);
             ERecvMatch "GLOBAL_POSITION_INT" true 5 (Return None);
             EClose (Return tt)].
Proof.
  split; [apply get_position_runs|].
  intros evs r (w' & H & Htr). unfold get_position in H.
  exec H; tidy Htr; destruct_outcomes.
  all: intros Hin Hlast; in_events Hin.
  all: cbn in Hlast; try discriminate Hlast.
  split; [reflexivity|]. eexists; reflexivity.
Qed.

(** C8 on a concrete run: a copter that sends no position. *)
Lemma get_position_no_telemetry_witness :
  exists evs r,
    runs (get_position sitl_silent) start evs r /\
    r = Return (VDict (<["error" := VStr msg_no_position]> ∅)).
Proof.
  eexists _, _. hold_run Hrun.
  refine (proj1 (proj2 (get_position_no_telemetry sitl_silent start) _ _ Hrun _ eq_refl)).
  in_list.
Defined.

(** C9. Whatever [get_status] returns is a record with exactly the fields
    armed (a boolean), mode (a string) and system_status (an integer or
    [None]).  When the lookup of the cached HEARTBEAT gives [None] and no
    call fails, it returns such a record with system_status [None]; when it
    gives a heartbeat, that heartbeat's status. *)
Theorem get_status_record env w :
  (exists evs r, runs (get_status env) w evs r) /\
  forall evs r, runs (get_status env) w evs r ->
    (forall v, r = Return v ->
       exists d armed mode,
         v = VDict d /\ dom d = status_fields /\
         d !! "armed" = Some (VBool armed) /\
         d !! "mode" = Some (VStr mode) /\
         (d !! "system_status" = Some VNone \/
          exists s, d !! "system_status" = Some (VInt s))) /\
    (In (EMessagesGet "HEARTBEAT" None) evs ->
     failures evs = [] ->
     exists d,
       r = Return (VDict d) /\ dom d = status_fields /\
       d !! "system_status" = Some VNone) /\
    (forall h,
       In (EMessagesGet "HEARTBEAT" (Some (HEARTBEAT h))) evs ->
       failures evs = [] ->
       exists d,
         r = Return (VDict d) /\ d !! "system_status" = Some (VInt (system_status h))).
Proof.
  split; [apply get_status_runs|].
  intros evs r (w' & H & Htr). unfold get_status in H.
  exec H; tidy Htr; destruct_outcomes.
  all: rewrite <- ?app_assoc in *; cbn [app] in *.
  all: try match goal with
           | Hm : messages_get_r _ _ _ = _ |- _ => rewrite Hm in *
           end.
  all: split; [|split].
  all: lazymatch goal with
       | |- forall v : Value, _ =>
           intros v Hv; first
             [ discriminate Hv
             | injection Hv as <-;
               eexists _, _, _; split; [reflexivity|];
               split; [unfold status_fields; rewrite !dom_insert_L, dom_empty_L; set_solver|];
               split; [reflexivity|]; split; [reflexivity|];
               first [ left; reflexivity | right; eexists; reflexivity ] ]
       | |- In _ _ -> _ =>
           intros Hin Hfail; in_events Hin; first
             [ cbn in Hfail; discriminate Hfail
             | eexists; split; [reflexivity|];
               split; [unfold status_fields; rewrite !dom_insert_L, dom_empty_L; set_solver|];
               reflexivity ]
       | |- forall h : Heartbeat, _ =>
           intros h Hin Hfail; in_events Hin; first
             [ cbn in Hfail; discriminate Hfail
             | injection Hin as <-; eexists; split; reflexivity ]
       end.
Qed.

(** C9 on a concrete run: no heartbeat is cached. *)
Lemma get_status_record_witness :
  exists evs r,
    runs (get_status sitl_silent) start evs r /\
    exists d,
      r = Return (VDict d) /\ dom d = status_fields /\
      d !! "system_status" = Some VNone.
Proof.
  eexists _, _. hold_run Hrun.
  refine (proj1 (proj2 (proj2 (get_status_record sitl_silent start) _ _ Hrun)) _ _).
  - in_list.
  - vm_compute. reflexivity.
Defined.

(** * Properties of all tools

    What every tool call does to the trace, to the output and to its
    result, by rules that follow the structure of the code. *)

Section KeepsRules.

Variable R : World -> World -> Prop.
Hypothesis R_refl : forall w, R w w.
Hypothesis R_trans : forall w1 w2 w3, R w1 w2 -> R w2 w3 -> R w1 w3.

Lemma Keeps_ret {A} (a : A) : Keeps R (ret a).
Proof. intros w r w' H. apply ret_inv in H as [_ ->]. apply R_refl. Qed.

Lemma Keeps_raise {A} e : Keeps R (@raise A e).
Proof. intros w r w' H. apply raise_inv in H as [_ ->]. apply R_refl. Qed.

Lemma Keeps_out_of_fuel {A} : Keeps R (@out_of_fuel A).
Proof. intros w r w' H. discriminate. Qed.

Lemma Keeps_bind {A B} (m : M A) (k : A -> M B) :
  Keeps R m -> (forall a, Keeps R (k a)) -> Keeps R (bind m k).
Proof.
  intros Hm Hk w r w' H. apply bind_inv in H as [(a & w1 & H1 & H2) | (e & H1 & _)].
  - eapply R_trans; [eapply Hm | eapply Hk]; eassumption.
  - eapply Hm; eassumption.
Qed.

Lemma Keeps_try_except {A} (body : M A) (h : Exn -> M A) :
  Keeps R body -> (forall e, Keeps R (h e)) -> Keeps R (try_except body h).
Proof.
  intros Hb Hh w r w' H.
  apply try_except_inv in H as [(a & H1 & _) | [(e & H1 & _) | (e & w1 & H1 & _ & H2)]].
  - eapply Hb; eassumption.
  - eapply Hb; eassumption.
  - eapply R_trans; [eapply Hb | eapply Hh]; eassumption.
Qed.

Lemma Keeps_try_finally {A} (body : M A) (fin : M unit) :
  Keeps R body -> Keeps R fin -> Keeps R (try_finally body fin).
Proof.
  intros Hb Hf w r w' H. apply try_finally_inv in H as (rb & w1 & rf & H1 & H2 & _).
  eapply R_trans; [eapply Hb | eapply Hf]; eassumption.
Qed.

Lemma Keeps_target_system env : Keeps R (target_system env).
Proof. intros w r w' H. apply target_system_inv in H as [_ ->]. apply R_refl. Qed.

Lemma Keeps_target_component env : Keeps R (target_component env).
Proof. intros w r w' H. apply target_component_inv in H as [_ ->]. apply R_refl. Qed.

Lemma Keeps_call env {A} (reply : list Event -> Outcome A) ev :
  (forall w r, R w (record env (ev r) 0 w)) -> Keeps R (call env reply ev).
Proof. intros Hev w r w' H. apply call_inv in H as [_ ->]. apply Hev. Qed.

Lemma Keeps_read env {A} (reply : list Event -> A) ev :
  (forall w r, R w (record env (ev r) 0 w)) -> Keeps R (read env reply ev).
Proof. intros Hev w r w' H. apply read_inv in H as [_ ->]. apply Hev. Qed.

Lemma Keeps_time_time env :
  (forall w t, R w (record env (ETime t) 0 w)) -> Keeps R (time_time env).
Proof. intros Hev w r w' H. apply time_time_inv in H as [_ ->]. apply Hev. Qed.

Lemma Keeps_time_sleep env ms :
  (forall w, R w (record env (ESleep ms) ms w)) -> Keeps R (time_sleep env ms).
Proof. intros Hev w r w' H. apply time_sleep_inv in H as [_ ->]. apply Hev. Qed.

Lemma Keeps_print s : (forall w, R w (say s w)) -> Keeps R (print s).
Proof. intros Hev w r w' H. apply print_inv in H as [_ ->]. apply Hev. Qed.

End KeepsRules.

(** [keeps refl trans step]: prove [Keeps R m] along the structure of [m];
    [step] proves that a single recorded call or printed line is in [R]. *)
Ltac keeps Hrefl Htrans step :=
  lazymatch goal with
  | |- Keeps _ (bind _ _) =>
      apply (Keeps_bind _ Htrans); [keeps Hrefl Htrans step | intros ?; keeps Hrefl Htrans step]
  | |- Keeps _ (try_except _ _) =>
      apply (Keeps_try_except _ Htrans);
        [keeps Hrefl Htrans step | intros ?; keeps Hrefl Htrans step]
  | |- Keeps _ (try_finally _ _) =>
      apply (Keeps_try_finally _ Htrans); [keeps Hrefl Htrans step | keeps Hrefl Htrans step]
  | |- Keeps _ (if ?b then _ else _) => destruct b; keeps Hrefl Htrans step
  | |- Keeps _ (match ?x with _ => _ end) => destruct x; keeps Hrefl Htrans step
  | |- Keeps _ (ret _) => apply (Keeps_ret _ Hrefl)
  | |- Keeps _ (raise _) => apply (Keeps_raise _ Hrefl)
  | |- Keeps _ out_of_fuel => apply Keeps_out_of_fuel
  | |- Keeps _ (target_system _) => apply (Keeps_target_system _ Hrefl)
  | |- Keeps _ (target_component _) => apply (Keeps_target_component _ Hrefl)
  | |- Keeps _ (call _ _ _) => apply Keeps_call; intros ? ?; step
  | |- Keeps _ (read _ _ _) => apply Keeps_read; intros ? ?; step
  | |- Keeps _ (time_time _) => apply Keeps_time_time; intros ? ?; step
  | |- Keeps _ (time_sleep _ _) => apply Keeps_time_sleep; intros ?; step
  | |- Keeps _ (print _) => apply Keeps_print; intros ?; step
  | |- Keeps _ (connect_to_ardupilot _) => unfold connect_to_ardupilot; keeps Hrefl Htrans step
  | |- Keeps _ (mavlink_connection _ _ _ _ _) => unfold mavlink_connection; keeps Hrefl Htrans step
  | |- Keeps _ (close _) => unfold close; keeps Hrefl Htrans step
  | |- Keeps _ (dict_get _ _) => unfold dict_get; keeps Hrefl Htrans step
  | |- Keeps _ (attr_result _) => unfold attr_result; keeps Hrefl Htrans step
  | |- Keeps _ (attr_system_status _) => unfold attr_system_status; keeps Hrefl Htrans step
  | |- Keeps _ (wait_heartbeat _ _) => unfold wait_heartbeat; keeps Hrefl Htrans step
  | |- Keeps _ (arducopter_arm _) => unfold arducopter_arm; keeps Hrefl Htrans step
  | |- Keeps _ (motors_armed_wait _) => unfold motors_armed_wait; keeps Hrefl Htrans step
  | |- Keeps _ (arducopter_disarm _) => unfold arducopter_disarm; keeps Hrefl Htrans step
  | |- Keeps _ (motors_disarmed_wait _) => unfold motors_disarmed_wait; keeps Hrefl Htrans step
  | |- Keeps _ (flightmode _) => unfold flightmode; keeps Hrefl Htrans step
  | |- Keeps _ (mode_mapping _) => unfold mode_mapping; keeps Hrefl Htrans step
  | |- Keeps _ (set_mode _ _) => unfold set_mode; keeps Hrefl Htrans step
  | |- Keeps _ (command_long_send _ _) => unfold command_long_send; keeps Hrefl Htrans step
  | |- Keeps _ (recv_match _ _ _ _) => unfold recv_match; keeps Hrefl Htrans step
  | |- Keeps _ (messages_get _ _) => unfold messages_get; keeps Hrefl Htrans step
  | |- Keeps _ (motors_armed _) => unfold motors_armed; keeps Hrefl Htrans step
  | |- _ => idtac
  end.

Lemma emitting_refl P w : emitting P w w.
Proof. exists []. rewrite app_nil_r. auto. Qed.

Lemma emitting_trans P w1 w2 w3 : emitting P w1 w2 -> emitting P w2 w3 -> emitting P w1 w3.
Proof.
  intros (e1 & H1 & F1) (e2 & H2 & F2). exists (e1 ++ e2).
  rewrite H2, H1, <- app_assoc. split; [reflexivity | apply Forall_app; auto].
Qed.

Lemma emitting_record P env e busy w : P e -> emitting P w (record env e busy w).
Proof. intros He. exists [e]. cbn. auto. Qed.

Lemma emitting_say P s w : emitting P w (say s w).
Proof. exists []. cbn. rewrite app_nil_r. auto. Qed.

Ltac emit_step :=
  first [ apply emitting_say
        | apply emitting_record; cbn;
          first [ exact I | reflexivity | discriminate
                | left; repeat split; reflexivity
                | right; first [ exact I | reflexivity | discriminate | repeat split; reflexivity ] ] ].

Lemma confirm_loop_emits env fuel start_time mode :
  Keeps (emitting (may_call (ChangeMode mode))) (confirm_loop env fuel start_time mode).
Proof.
  induction fuel as [|fuel IH]; [apply Keeps_out_of_fuel|].
  rewrite confirm_loop_S.
  keeps (emitting_refl (may_call (ChangeMode mode)))
        (emitting_trans (may_call (ChangeMode mode))) emit_step.
  exact IH.
Qed.

Lemma invoke_emits env float_str fuel op :
  Keeps (emitting (may_call op)) (invoke env float_str fuel op).
Proof.
  destruct op; cbn [invoke];
    [ unfold arm | unfold disarm | unfold takeoff | unfold change_mode
    | unfold get_status | unfold get_position ].
  all: match goal with
       | |- Keeps (emitting ?P) _ => keeps (emitting_refl P) (emitting_trans P) emit_step
       end.
  apply confirm_loop_emits.
Qed.

(** X1. Each tool makes only the calls written in its body, with the
    arguments written there: besides opening the connection (to
    udp:127.0.0.1:14552, as system 1, component 90, reconnecting) and
    closing it, [arm] waits for a heartbeat with a 10 s timeout, arms and
    waits for the motors; [disarm] waits without a timeout, disarms and
    waits; [takeoff] may also read the mode and the mode table, set a mode,
    sleep for exactly 1000 ms, send a command numbered 22 (NAV_TAKEOFF)
    with its own altitude in param7 and zero in the confirmation and in
    param1 to param6, and wait 10 s for a COMMAND_ACK; [change_mode] reads the table,
    the clock and the mode, sets a mode (never [None]) and sleeps for
    exactly 100 ms; [get_status] reads the cached HEARTBEAT, the armed flag
    and the mode; [get_position] waits 5 s for a GLOBAL_POSITION_INT. *)
Theorem tool_footprint env float_str fuel op w evs r :
  runs (invoke env float_str fuel op) w evs r -> Forall (may_call op) evs.
Proof.
  intros (w' & H & Htr).
  destruct (invoke_emits env float_str fuel op _ _ _ H) as (evs' & Htr' & Hall).
  rewrite Htr' in Htr. apply app_inv_head in Htr. subst evs'. exact Hall.
Qed.

Lemma tool_footprint_witness :
  exists evs r,
    runs (invoke sitl repr_15 51 (Takeoff (PyFloat.of_int 15))) start evs r /\
    Forall (may_call (Takeoff (PyFloat.of_int 15))) evs.
Proof.
  eexists _, _. hold_run Hrun.
  exact (tool_footprint sitl repr_15 51 (Takeoff (PyFloat.of_int 15)) start _ _ Hrun).
Defined.

Lemma footprint_no_command op evs :
  (op = GetStatus \/ op = GetPosition) ->
  Forall (may_call op) evs -> List.filter is_command evs = [].
Proof.
  intros Hop Hall. induction Hall as [|e evs He _ IH]; [reflexivity|].
  cbn. rewrite IH.
  destruct Hop as [-> | ->]; destruct He as [He|He]; destruct e; cbn in *;
    try contradiction; reflexivity.
Qed.

(** X2. [get_status] and [get_position] send nothing to the vehicle: no
    arm, disarm, mode or long command appears among their calls, whatever
    the vehicle answers and however the call ends. *)
Theorem read_only_tools_send_no_command env float_str fuel op w evs r :
  op = GetStatus \/ op = GetPosition ->
  runs (invoke env float_str fuel op) w evs r ->
  List.filter is_command evs = [].
Proof.
  intros Hop (w' & H & Htr).
  destruct (invoke_emits env float_str fuel op _ _ _ H) as (evs' & Htr' & Hall).
  rewrite Htr' in Htr. apply app_inv_head in Htr. subst evs'.
  exact (footprint_no_command op evs Hop Hall).
Qed.

Lemma read_only_tools_send_no_command_witness :
  exists evs r,
    runs (invoke sitl repr_15 51 GetStatus) start evs r /\
    List.filter is_command evs = [].
Proof.
  eexists _, _. hold_run Hrun.
  exact (read_only_tools_send_no_command sitl repr_15 51 GetStatus start _ _
           (or_introl eq_refl) Hrun).
Defined.

(** ** Output *)

Lemma same_stdout_refl w : same_stdout w w.
Proof. reflexivity. Qed.

Lemma same_stdout_trans w1 w2 w3 : same_stdout w1 w2 -> same_stdout w2 w3 -> same_stdout w1 w3.
Proof. unfold same_stdout. congruence. Qed.

Ltac stdout_step := unfold same_stdout; reflexivity.

Lemma confirm_loop_silent env fuel start_time mode :
  Keeps same_stdout (confirm_loop env fuel start_time mode).
Proof.
  induction fuel as [|fuel IH]; [apply Keeps_out_of_fuel|].
  rewrite confirm_loop_S. keeps same_stdout_refl same_stdout_trans stdout_step. exact IH.
Qed.

(** X3. [connect_to_ardupilot] always comes back, after exactly one call,
    [mavlink_connection] on udp:127.0.0.1:14552.  It prints the banner
    first; when the call raises an [Exception] it prints the five lines of
    diagnosis and raises the same exception again; an exception outside
    [Exception] passes through with nothing more printed. *)
Theorem connect_to_ardupilot_outcomes env w :
  exists rc w',
    connect_to_ardupilot env w = Some (rc, w') /\
    trace w' = trace w ++ [connect_event rc] /\
    stdout w' = stdout w ++ connect_banner ::
      match rc with
      | Return _ => []
      | Raise e => if is_Exception e then connect_diagnostics e else []
      end.
Proof.
  unfold connect_to_ardupilot, try_except, bind, print, mavlink_connection, call, raise.
  cbn [trace say]. destruct (mavlink_connection_r env (trace w)) as [[]|e] eqn:E.
  - eexists _, _. split; [reflexivity|]. split; reflexivity.
  - destruct (is_Exception e) eqn:Ee.
    + eexists _, _. split; [reflexivity|]. cbn. rewrite Ee.
      split; [reflexivity|]. rewrite <- !app_assoc. reflexivity.
    + eexists _, _. split; [reflexivity|]. cbn. rewrite Ee. split; reflexivity.
Qed.

Lemma connect_to_ardupilot_inv env w rc w' :
  connect_to_ardupilot env w = Some (rc, w') ->
  trace w' = trace w ++ [connect_event rc] /\
  stdout w' = stdout w ++ connect_banner ::
    match rc with
    | Return _ => []
    | Raise e => if is_Exception e then connect_diagnostics e else []
    end.
Proof.
  unfold connect_to_ardupilot, try_except, bind, print, mavlink_connection, call, raise.
  cbn [trace say]. destruct (mavlink_connection_r env (trace w)) as [[]|e] eqn:E.
  - intros H. injection H as <- <-. split; reflexivity.
  - destruct (is_Exception e) eqn:Ee; intros H; injection H as <- <-; cbn; rewrite Ee.
    + split; [reflexivity|]. rewrite <- !app_assoc. reflexivity.
    + split; reflexivity.
Qed.

Lemma invoke_scope_silent env float_str fuel op :
  exists body : M Value,
    Keeps same_stdout body /\
    invoke env float_str fuel op =
    (connect_to_ardupilot env;; try_finally body (close env))%py.
Proof.
  destruct op; cbn [invoke];
    [ unfold arm | unfold disarm | unfold takeoff | unfold change_mode
    | unfold get_status | unfold get_position ];
    eexists; (split; [|reflexivity]);
    keeps same_stdout_refl same_stdout_trans stdout_step.
  apply confirm_loop_silent.
Qed.

(** X4. A tool call prints the connection banner and nothing else, unless
    opening the connection raised an [Exception]: then it prints the banner
    and the five lines of diagnosis, makes no further call and leaves with
    that exception.  No tool prints anything of its own. *)
Theorem tools_print_only_the_connection_lines env float_str fuel op w r w' :
  invoke env float_str fuel op w = Some (r, w') ->
  stdout w' = stdout w ++ [connect_banner] \/
  exists e,
    r = Raise e /\ is_Exception e = true /\
    trace w' = trace w ++ [connect_event (Raise e)] /\
    stdout w' = stdout w ++ connect_banner :: connect_diagnostics e.
Proof.
  intros H.
  destruct (invoke_scope_silent env float_str fuel op) as (body & Hsilent & Hop).
  rewrite Hop in H.
  apply bind_inv in H as [(a & w1 & H1 & H2) | (e & H1 & ->)].
  - apply connect_to_ardupilot_inv in H1 as [_ Hout]. left.
    assert (Hs : same_stdout w1 w').
    { revert H2. apply (Keeps_try_finally _ same_stdout_trans); [exact Hsilent|].
      unfold close. keeps same_stdout_refl same_stdout_trans stdout_step. }
    unfold same_stdout in Hs. rewrite Hs, Hout. reflexivity.
  - apply connect_to_ardupilot_inv in H1 as [Htr Hout].
    destruct (is_Exception e) eqn:Ee.
    + right. exists e. auto.
    + left. exact Hout.
Qed.

Lemma tools_print_only_the_connection_lines_witness :
  exists r w',
    invoke sitl repr_15 51 Arm start = Some (r, w') /\
    (stdout w' = stdout start ++ [connect_banner] \/
     exists e,
       r = Raise e /\ is_Exception e = true /\
       trace w' = trace start ++ [connect_event (Raise e)] /\
       stdout w' = stdout start ++ connect_banner :: connect_diagnostics e).
Proof.
  eexists _, _.
  match goal with
  | |- ?R /\ _ => assert (Hrun : R) by (vm_compute; reflexivity)
  end.
  split; [exact Hrun|].
  exact (tools_print_only_the_connection_lines sitl repr_15 51 Arm start _ _ Hrun).
Defined.

(** ** Time *)

Lemma slept_app evs1 evs2 : slept (evs1 ++ evs2) = slept evs1 + slept evs2.
Proof.
  induction evs1 as [|e evs1 IH]; [reflexivity|].
  destruct e; cbn [app slept]; lia.
Qed.

Lemma outlasts_sleep_refl w : outlasts_sleep w w.
Proof. exists []. rewrite app_nil_r. cbn. split; [reflexivity | lia]. Qed.

Lemma outlasts_sleep_trans w1 w2 w3 :
  outlasts_sleep w1 w2 -> outlasts_sleep w2 w3 -> outlasts_sleep w1 w3.
Proof.
  intros (e1 & H1 & T1) (e2 & H2 & T2). exists (e1 ++ e2).
  rewrite H2, H1, <- app_assoc, slept_app. split; [reflexivity | lia].
Qed.

Ltac sleep_step :=
  first [ exists []; cbn [trace now stdout say slept]; rewrite app_nil_r;
          split; [reflexivity | lia]
        | eexists [_]; cbn [trace now record slept]; split; [reflexivity | lia] ].

Lemma confirm_loop_outlasts_sleep env fuel start_time mode :
  Keeps outlasts_sleep (confirm_loop env fuel start_time mode).
Proof.
  induction fuel as [|fuel IH]; [apply Keeps_out_of_fuel|].
  rewrite confirm_loop_S. keeps outlasts_sleep_refl outlasts_sleep_trans sleep_step. exact IH.
Qed.

Lemma invoke_outlasts_sleep env float_str fuel op :
  Keeps outlasts_sleep (invoke env float_str fuel op).
Proof.
  destruct op; cbn [invoke];
    [ unfold arm | unfold disarm | unfold takeoff | unfold change_mode
    | unfold get_status | unfold get_position ].
  all: keeps outlasts_sleep_refl outlasts_sleep_trans sleep_step.
  apply confirm_loop_outlasts_sleep.
Qed.

(** ** Results *)

Lemma Yields_ret {A} (P : A -> Prop) a : P a -> Yields P (ret a).
Proof. intros Ha w r w' H b Hb. apply ret_inv in H as [-> _]. congruence. Qed.

Lemma Yields_raise {A} (P : A -> Prop) e : Yields P (raise e).
Proof. intros w r w' H b Hb. apply raise_inv in H as [-> _]. discriminate. Qed.

Lemma Yields_bind {A B} (Q : A -> Prop) (P : B -> Prop) (m : M A) (k : A -> M B) :
  Yields Q m -> (forall a, Q a -> Yields P (k a)) -> Yields P (bind m k).
Proof.
  intros Hm Hk w r w' H b Hb. apply bind_inv in H as [(a & w1 & H1 & H2) | (e & H1 & ->)].
  - eapply Hk; [eapply Hm; [exact H1 | reflexivity] | exact H2 | exact Hb].
  - discriminate.
Qed.

Lemma Yields_any {A} (m : M A) : Yields (fun _ => True) m.
Proof. intros w r w' H a Ha. exact I. Qed.

Lemma Yields_then {A B} (P : B -> Prop) (m : M A) (k : A -> M B) :
  (forall a, Yields P (k a)) -> Yields P (bind m k).
Proof. intros Hk. apply (Yields_bind (fun _ => True)); [apply Yields_any | auto]. Qed.

Lemma Yields_try_finally {A} (P : A -> Prop) (body : M A) (fin : M unit) :
  Yields P body -> Yields P (try_finally body fin).
Proof.
  intros Hb w r w' H a Ha. apply try_finally_inv in H as (rb & w1 & rf & H1 & _ & ->).
  destruct rf; [|discriminate]. eapply Hb; eassumption.
Qed.

Lemma Yields_try_except {A} (P : A -> Prop) (body : M A) (h : Exn -> M A) :
  Yields P body -> (forall e, Yields P (h e)) -> Yields P (try_except body h).
Proof.
  intros Hb Hh w r w' H a Ha.
  apply try_except_inv in H as [(b & H1 & ->) | [(e & _ & _ & ->) | (e & w1 & _ & _ & H2)]].
  - eapply Hb; eassumption.
  - discriminate.
  - eapply Hh; eassumption.
Qed.

Ltac yields :=
  lazymatch goal with
  | |- Yields _ (bind (confirm_loop _ _ _ _) _) => idtac
  | |- Yields _ (bind _ _) => apply Yields_then; intros ?; yields
  | |- Yields _ (try_finally _ _) => apply Yields_try_finally; yields
  | |- Yields _ (try_except _ _) => apply Yields_try_except; [yields | intros ?; yields]
  | |- Yields _ (if ?b then _ else _) => destruct b; yields
  | |- Yields _ (match ?x with _ => _ end) => destruct x; yields
  | |- Yields _ (ret _) => apply Yields_ret; try (eexists; reflexivity)
  | |- Yields _ (raise _) => apply Yields_raise
  | |- _ => idtac
  end.

Lemma confirm_loop_yields env fuel start_time mode :
  Yields (fun o => forall v, o = Some v -> exists s, v = VStr s)
         (confirm_loop env fuel start_time mode).
Proof.
  induction fuel as [|fuel IH]; [intros w r w' H; discriminate|].
  rewrite confirm_loop_S.
  apply Yields_then; intros t.
  destruct (PyFloat.ltb (PyFloat.sub t start_time) (PyFloat.of_int 5)).
  - apply Yields_then; intros current. destruct (current =? upper env mode)%string.
    + apply Yields_ret. intros v Hv. injection Hv as <-. eexists; reflexivity.
    + apply Yields_then; intros _. exact IH.
  - apply Yields_ret. discriminate.
Qed.

(** X5. What a tool returns has the type its signature declares: a string
    from [arm], [disarm], [takeoff] and [change_mode], a dict from
    [get_status] and [get_position]; error reports included. *)
Theorem tools_return_declared_type env float_str fuel op w evs v :
  runs (invoke env float_str fuel op) w evs (Return v) -> declared op v.
Proof.
  intros (w' & H & _).
  assert (Hy : Yields (declared op) (invoke env float_str fuel op)).
  { destruct op; cbn [invoke declared];
      [ unfold arm | unfold disarm | unfold takeoff | unfold change_mode
      | unfold get_status | unfold get_position ];
      yields.
    eapply Yields_bind; [apply confirm_loop_yields|].
    intros [v0|] Hv; yields. apply Hv. reflexivity. }
  eapply Hy; [exact H | reflexivity].
Qed.

Lemma tools_return_declared_type_witness :
  exists evs v,
    runs (invoke sitl_silent repr_15 51 GetPosition) start evs (Return v) /\
    declared GetPosition v.
Proof.
  eexists _, _. hold_run Hrun.
  exact (tools_return_declared_type sitl_silent repr_15 51 GetPosition start _ _ Hrun).
Defined.

(** * The tools one by one *)

(** X6. A run of [arm] in which no call fails is one of two: the
    heartbeat arrived within 10 s, the vehicle was armed, the motors waited
    for and the connection closed, and the result is the success message;
    or no heartbeat arrived, nothing was sent, the connection was closed and
    the result is the timeout message. *)
Theorem arm_outcomes env w evs r :
  runs (arm env) w evs r ->
  failures evs = [] ->
  (exists hb,
     evs = [connect_event (Return tt); EWaitHeartbeat (Some 10) (Return (Some hb));
            EArm (Return tt); EMotorsArmedWait (Return tt); EClose (Return tt)] /\
     r = Return (VStr msg_armed)) \/
  (evs = [connect_event (Return tt); EWaitHeartbeat (Some 10) (Return None);
          EClose (Return tt)] /\
   r = Return (VStr msg_liveness_timeout)).
Proof.
  intros (w' & H & Htr). unfold arm in H.
  exec H; tidy Htr; destruct_outcomes; intros Hf; try discriminate Hf.
  all: match goal with
       | Hx : negb (truthy ?x) = _ |- _ => destruct x; try discriminate Hx
       end.
  - right. split; reflexivity.
  - left. eexists. split; reflexivity.
Qed.

Lemma arm_outcomes_witness :
  exists evs r,
    runs (arm sitl_mute) start evs r /\
    failures evs = [] /\
    ((exists hb,
        evs = [connect_event (Return tt); EWaitHeartbeat (Some 10) (Return (Some hb));
               EArm (Return tt); EMotorsArmedWait (Return tt); EClose (Return tt)] /\
        r = Return (VStr msg_armed)) \/
     (evs = [connect_event (Return tt); EWaitHeartbeat (Some 10) (Return None);
             EClose (Return tt)] /\
      r = Return (VStr msg_liveness_timeout))).
Proof.
  eexists _, _. hold_run Hrun. split; [reflexivity|].
  exact (arm_outcomes sitl_mute start _ _ Hrun eq_refl).
Defined.

(** X7. [disarm] does not look at what its wait for a heartbeat yields
    and gives that wait no timeout: a run in which no call fails makes
    exactly the calls connect, wait for a heartbeat, disarm, wait for the
    motors, close, and returns the success message. *)
Theorem disarm_outcomes env w evs r :
  runs (disarm env) w evs r ->
  failures evs = [] ->
  exists hb,
    evs = [connect_event (Return tt); EWaitHeartbeat None (Return hb);
           EDisarm (Return tt); EMotorsDisarmedWait (Return tt); EClose (Return tt)] /\
    r = Return (VStr msg_disarmed).
Proof.
  intros (w' & H & Htr). unfold disarm in H.
  exec H; tidy Htr; destruct_outcomes; intros Hf; try discriminate Hf.
  eexists. split; reflexivity.
Qed.

Lemma disarm_outcomes_witness :
  exists evs r,
    runs (disarm sitl) start evs r /\
    failures evs = [] /\
    exists hb,
      evs = [connect_event (Return tt); EWaitHeartbeat None (Return hb);
             EDisarm (Return tt); EMotorsDisarmedWait (Return tt); EClose (Return tt)] /\
      r = Return (VStr msg_disarmed).
Proof.
  eexists _, _. hold_run Hrun. split; [reflexivity|].
  exact (disarm_outcomes sitl start _ _ Hrun eq_refl).
Defined.

(** The paths of [takeoff], followed once for the three properties below. *)
Lemma takeoff_facts env float_str altitude w evs r w' :
  takeoff env float_str altitude w = Some (r, w') ->
  trace w' = trace w ++ evs ->
  (In (EWaitHeartbeat (Some 10) (Return None)) evs ->
   last evs = Some (EClose (Return tt)) ->
   evs = [connect_event (Return tt); EWaitHeartbeat (Some 10) (Return None);
          EClose (Return tt)] /\
   r = Return (VStr msg_liveness_timeout)) /\
  (In (EModeMapping (Return None)) evs ->
   last evs = Some (EClose (Return tt)) ->
   r = Raise no_get /\ List.filter is_command evs = []) /\
  (forall c rc, In (ECommandLongSend c rc) evs ->
     1000 <= slept evs /\
     (forall id rs, In (ESetMode id rs) evs -> 2000 <= slept evs)).
Proof.
  intros H Htr. unfold takeoff in H. exec H; tidy Htr; destruct_outcomes.
  all: split; [|split].
  all: lazymatch goal with
       | |- In (EWaitHeartbeat _ _) _ -> _ =>
           intros Hin Hlast; in_events Hin; injection Hin as ->;
           try match goal with
               | Hx : negb (truthy None) = false |- _ => cbn in Hx; discriminate Hx
               end;
           cbn in Hlast; try discriminate Hlast; split; reflexivity
       | |- In (EModeMapping _) _ -> _ =>
           intros Hin Hlast; in_events Hin; try (injection Hin as Hin; discriminate Hin);
           cbn in Hlast; try discriminate Hlast; split; reflexivity
       | |- forall c rc, _ =>
           intros c rc Hin; in_events Hin;
           (split; [cbn [slept]; lia |]);
           intros id rs Hin'; in_events Hin'; cbn [slept]; lia
       end.
Qed.

(** X8. When no heartbeat arrives within [takeoff]'s 10 s wait (and the
    release succeeds), [takeoff] returns the timeout message and has made
    no call but the connection, the wait and the release: it neither reads
    nor changes the mode, does not arm and sends no command. *)
Theorem takeoff_liveness_timeout env float_str altitude w :
  (exists evs r, runs (takeoff env float_str altitude) w evs r) /\
  forall evs r, runs (takeoff env float_str altitude) w evs r ->
    In (EWaitHeartbeat (Some 10) (Return None)) evs ->
    last evs = Some (EClose (Return tt)) ->
    evs = [connect_event (Return tt); EWaitHeartbeat (Some 10) (Return None);
           EClose (Return tt)] /\
    r = Return (VStr msg_liveness_timeout).
Proof.
  split; [apply takeoff_runs|].
  intros evs r (w' & H & Htr).
  exact (proj1 (takeoff_facts env float_str altitude w evs r w' H Htr)).
Qed.

Lemma takeoff_liveness_timeout_witness :
  exists evs r,
    runs (takeoff sitl_mute repr_15 (PyFloat.of_int 15)) start evs r /\
    List.filter is_command evs = [] /\
    r = Return (VStr msg_liveness_timeout).
Proof.
  eexists _, _. hold_run Hrun. split; [reflexivity|].
  refine (proj2 (proj2 (takeoff_liveness_timeout sitl_mute repr_15 (PyFloat.of_int 15) start)
                   _ _ Hrun _ eq_refl)).
  in_list.
Defined.

(** X9. When [takeoff] finds the vehicle outside GUIDED and
    [mode_mapping()] gives [None] (no table for the vehicle type), the
    lookup of "GUIDED" raises: the run ends, once the connection is closed,
    with that exception, and nothing was sent to the vehicle, neither a
    mode change nor an arm or take-off command. *)
Theorem takeoff_missing_mode_table env float_str altitude w :
  (exists evs r, runs (takeoff env float_str altitude) w evs r) /\
  forall evs r, runs (takeoff env float_str altitude) w evs r ->
    In (EModeMapping (Return None)) evs ->
    last evs = Some (EClose (Return tt)) ->
    r = Raise no_get /\ List.filter is_command evs = [].
Proof.
  split; [apply takeoff_runs|].
  intros evs r (w' & H & Htr).
  exact (proj1 (proj2 (takeoff_facts env float_str altitude w evs r w' H Htr))).
Qed.

Lemma takeoff_missing_mode_table_witness :
  exists evs r,
    runs (takeoff unidentified repr_15 (PyFloat.of_int 15)) start evs r /\
    r = Raise no_get /\ List.filter is_command evs = [].
Proof.
  eexists _, _. hold_run Hrun.
  refine (proj2 (takeoff_missing_mode_table unidentified repr_15 (PyFloat.of_int 15) start)
            _ _ Hrun _ eq_refl).
  in_list.
Defined.

(** X10. A [takeoff] that gets as far as sending the take-off command has
    taken at least 1000 ms (the pause after arming), and at least 2000 ms
    when it also set the mode (the pause after the mode change). *)
Theorem takeoff_duration env float_str altitude w r w' evs :
  takeoff env float_str altitude w = Some (r, w') ->
  trace w' = trace w ++ evs ->
  forall c rc, In (ECommandLongSend c rc) evs ->
    now w + 1000 <= now w' /\
    (forall id rs, In (ESetMode id rs) evs -> now w + 2000 <= now w').
Proof.
  intros H Htr c rc Hin.
  destruct (invoke_outlasts_sleep env float_str 0 (Takeoff altitude) _ _ _ H)
    as (evs' & Htr' & Hclock).
  rewrite Htr' in Htr. apply app_inv_head in Htr. subst evs'.
  destruct (proj2 (proj2 (takeoff_facts env float_str altitude w evs r w' H Htr'))
              c rc Hin) as [H1 H2].
  split; [lia|]. intros id rs Hin'. specialize (H2 id rs Hin'). lia.
Qed.

Lemma takeoff_duration_witness :
  exists r w' evs,
    takeoff sitl repr_15 (PyFloat.of_int 15) start = Some (r, w') /\
    trace w' = trace start ++ evs /\
    now start + 2000 <= now w'.
Proof.
  eexists _, _, _.
  match goal with
  | |- ?R /\ _ => assert (Hrun : R) by (vm_compute; reflexivity)
  end.
  split; [exact Hrun|].
  match goal with
  | |- ?R /\ _ => assert (Htr : R) by (vm_compute; reflexivity)
  end.
  split; [exact Htr|].
  refine (proj2 (takeoff_duration sitl repr_15 (PyFloat.of_int 15) start _ _ _ Hrun Htr
                   (takeoff_command 1 1 (PyFloat.of_int 15)) (Return tt) _)
            (Some 4) (Return tt) _); in_list.
Defined.

(** X11. [get_status] makes, when it returns, exactly six calls in this
    order: connect, wait for a heartbeat (no timeout), look up the cached
    HEARTBEAT, read the armed flag, read the mode, close.  The record it
    returns holds the armed flag and the mode just read, and as
    system_status the status of the cached message, or [None] when there is
    none; what the wait itself yielded is not used. *)
Theorem get_status_reports env w evs v :
  runs (get_status env) w evs (Return v) ->
  exists hb cached armed mode,
    evs = [connect_event (Return tt); EWaitHeartbeat None (Return hb);
           EMessagesGet "HEARTBEAT" cached; EMotorsArmed (Return armed);
           EFlightmode mode; EClose (Return tt)] /\
    v = VDict (<["armed" := VBool armed]>
              (<["mode" := VStr mode]>
              (<["system_status" :=
                   match cached with
                   | Some (HEARTBEAT h) => VInt (system_status h)
                   | _ => VNone
                   end]> ∅))).
Proof.
  intros Hrun.
  enough (Hgen : forall r, runs (get_status env) w evs r -> r = Return v -> _)
    by exact (Hgen _ Hrun eq_refl).
  clear Hrun. intros r (w' & H & Htr). unfold get_status in H.
  exec H; tidy Htr; destruct_outcomes; intros Hr; try discriminate Hr; injection Hr as <-.
  all: rewrite <- ?app_assoc in *; cbn [app] in *.
  all: match goal with
       | Hm : messages_get_r _ _ _ = _ |- _ => rewrite Hm
       end.
  all: eexists _, _, _, _; split; reflexivity.
Qed.

Lemma get_status_reports_witness :
  exists evs v,
    runs (get_status sitl_silent) start evs (Return v) /\
    v = VDict (<["armed" := VBool true]>
              (<["mode" := VStr "STABILIZE"]>
              (<["system_status" := VNone]> ∅))).
Proof.
  eexists _, _. hold_run Hrun.
  destruct (get_status_reports sitl_silent start _ _ Hrun)
    as (hb & cached & armed & mode & Hevs & Hv).
  injection Hevs as _ <- <- <-. exact Hv.
Defined.

(** ** [change_mode] *)

(** A loop that ran to its end did so on a clock reading that failed
    its test. *)
Lemma Confirming_gave_up start target loop ok :
  Confirming start target loop ok -> ok = false ->
  exists between t,
    loop = between ++ [ETime t] /\
    forallb polling between = true /\
    PyFloat.ltb (PyFloat.sub t start) (PyFloat.of_int 5) = false.
Proof.
  induction 1 as [t Ht | t Ht | t seen rest ok Ht Hseen Hrest IH]; intros Hok.
  - exists [], t. auto.
  - discriminate Hok.
  - destruct (IH Hok) as (between & t' & -> & Hp & Ht').
    exists (ETime t :: EFlightmode seen :: ESleep 100 :: between), t'. auto.
Qed.

Lemma append_byte_inj x y c : x +:+ String c "" = y +:+ String c "" -> x = y.
Proof.
  revert y. induction x as [|a x IH]; intros [|b y] H; cbn in H.
  - reflexivity.
  - injection H as _ H. destruct y; discriminate H.
  - injection H as _ H. destruct x; discriminate H.
  - injection H as -> H. f_equal. apply IH, H.
Qed.

(** The paths of [change_mode], followed once for the two properties
    below. *)
Lemma change_mode_facts env fuel mode w evs r w' :
  change_mode env fuel mode w = Some (r, w') ->
  trace w' = trace w ++ evs ->
  (In (EModeMapping (Return None)) evs ->
   last evs = Some (EClose (Return tt)) ->
   r = Raise no_get /\ List.filter is_command evs = []) /\
  (forall observed, r = Return (VStr (msg_mode_unconfirmed observed)) ->
     exists hb table id t0 loop,
       evs = [connect_event (Return tt); EWaitHeartbeat None (Return hb);
              EModeMapping (Return (Some table)); ESetMode (Some id) (Return tt);
              ETime t0] ++ loop ++ [EFlightmode observed; EClose (Return tt)] /\
       Confirming t0 (upper env mode) loop false).
Proof.
  intros H Htr. unfold change_mode in H. exec H.
  all: try loop_inv.
  all: tidy Htr; destruct_outcomes.
  all: split.
  all: lazymatch goal with
       | |- In (EModeMapping _) _ -> _ =>
           intros Hin Hlast; in_events Hin;
           try (injection Hin as Hin; discriminate Hin);
           try (eapply In_after_polling in Hin;
                [ | eapply Confirming_polling; eassumption | reflexivity ];
                in_events Hin);
           cbn in Hlast; try discriminate Hlast; split; reflexivity
       | |- forall observed, _ =>
           intros observed Hret; try discriminate Hret;
           try (destruct ok; try discriminate; injection Hr as ->;
                apply (f_equal (fun v => match v with
                                         | VStr s => first_byte s
                                         | _ => None
                                         end)) in Hret;
                cbn in Hret; discriminate Hret);
           try (injection Hret as Hret;
                apply (f_equal first_byte) in Hret; cbn in Hret; discriminate Hret)
       end.
  all: injection Hret as Hret.
  all: destruct ok; try discriminate Hr.
  all: rewrite <- ?app_assoc in *; cbn [app] in *.
  - injection Hr as Hr. rewrite Hr in Hret.
    apply (f_equal (fun v => match v with
                             | VStr s => first_byte s
                             | _ => None
                             end)) in Hret.
    cbn in Hret. discriminate Hret.
  - apply (inj (String.app "")), append_byte_inj in Hret. subst observed.
    eexists _, _, _, _, loop. split; [reflexivity | exact Hconf].
Qed.

(** X12. When [mode_mapping()] gives [None] (no table for the vehicle
    type), [change_mode] does not answer with the invalid-mode message: the
    lookup raises, and the run ends, once the connection is closed, with
    that exception.  Nothing was sent to the vehicle. *)
Theorem change_mode_missing_mode_table env fuel mode w :
  forall evs r, runs (change_mode env fuel mode) w evs r ->
    In (EModeMapping (Return None)) evs ->
    last evs = Some (EClose (Return tt)) ->
    r = Raise no_get /\ List.filter is_command evs = [].
Proof.
  intros evs r (w' & H & Htr).
  exact (proj1 (change_mode_facts env fuel mode w evs r w' H Htr)).
Qed.

Lemma change_mode_missing_mode_table_witness :
  exists evs r,
    runs (change_mode unidentified 51 "guided") start evs r /\
    r = Raise no_get /\ List.filter is_command evs = [].
Proof.
  eexists _, _. hold_run Hrun.
  refine (change_mode_missing_mode_table unidentified 51 "guided" start
            _ _ Hrun _ eq_refl).
  in_list.
Defined.

(** X13. [change_mode] gives up only when the clock says so: a run that
    returns the warning (mode change unconfirmed) ends with a clock reading
    [t] for which [t - t0 < 5] is false in binary64, [t0] being the reading
    taken right after [set_mode]; then comes one more read of the flight
    mode, which the warning names, and the release. *)
Theorem change_mode_warning_after_5s env fuel mode w evs observed :
  runs (change_mode env fuel mode) w evs
       (Return (VStr (msg_mode_unconfirmed observed))) ->
  exists hb table id t0 between t,
    evs = [connect_event (Return tt); EWaitHeartbeat None (Return hb);
           EModeMapping (Return (Some table)); ESetMode (Some id) (Return tt);
           ETime t0] ++ between ++
          [ETime t; EFlightmode observed; EClose (Return tt)] /\
    forallb polling between = true /\
    PyFloat.ltb (PyFloat.sub t t0) (PyFloat.of_int 5) = false.
Proof.
  intros (w' & H & Htr).
  destruct (proj2 (change_mode_facts env fuel mode w evs _ w' H Htr) observed eq_refl)
    as (hb & table & id & t0 & loop & -> & Hconf).
  destruct (Confirming_gave_up _ _ _ _ Hconf eq_refl) as (between & t & -> & Hp & Ht).
  exists hb, table, id, t0, between, t.
  rewrite <- !app_assoc. cbn [app]. auto.
Qed.

Lemma change_mode_warning_after_5s_witness :
  exists evs,
    runs (change_mode sitl_stuck 60 "guided") start evs
         (Return (VStr (msg_mode_unconfirmed "STABILIZE"))) /\
    exists hb table id t0 between t,
      evs = [connect_event (Return tt); EWaitHeartbeat None (Return hb);
             EModeMapping (Return (Some table)); ESetMode (Some id) (Return tt);
             ETime t0] ++ between ++
            [ETime t; EFlightmode "STABILIZE"; EClose (Return tt)] /\
      forallb polling between = true /\
      PyFloat.ltb (PyFloat.sub t t0) (PyFloat.of_int 5) = false.
Proof.
  eexists. hold_run Hrun.
  exact (change_mode_warning_after_5s sitl_stuck 60 "guided" start _ "STABILIZE" Hrun).
Defined.

Lemma same_but_refl a1 a2 x : same_but a1 a2 x x.
Proof. destruct x as [[r w]|]; cbn; auto. Qed.

Lemma same_but_bind {A} a1 a2 (m : M A) (k1 k2 : A -> M Value) w :
  (forall a w1, same_but a1 a2 (k1 a w1) (k2 a w1)) ->
  same_but a1 a2 (bind m k1 w) (bind m k2 w).
Proof.
  intros H. unfold bind. destruct (m w) as [[[a|e] w1]|]; cbn; auto.
Qed.

Lemma same_but_try_finally a1 a2 (b1 b2 : M Value) (f : M unit) w :
  same_but a1 a2 (b1 w) (b2 w) ->
  same_but a1 a2 (try_finally b1 f w) (try_finally b2 f w).
Proof.
  unfold try_finally, same_but.
  destruct (b1 w) as [[r1 w1]|], (b2 w) as [[r2 w2]|]; try tauto.
  intros [<- Hr]. destruct (f w1) as [[[u|e] w3]|]; auto.
Qed.

Lemma confirm_loop_upper env m1 m2 :
  upper env m1 = upper env m2 ->
  forall fuel start_time w,
    confirm_loop env fuel start_time m1 w = confirm_loop env fuel start_time m2 w.
Proof.
  intros Hup. induction fuel as [|fuel IH]; intros start_time w; [reflexivity|].
  rewrite !confirm_loop_S. unfold bind.
  destruct (time_time env w) as [[[t|e] w1]|]; try reflexivity.
  destruct (PyFloat.ltb (PyFloat.sub t start_time) (PyFloat.of_int 5)); try reflexivity.
  destruct (flightmode env w1) as [[[c|e] w2]|]; try reflexivity.
  rewrite Hup. destruct (String.eqb c (upper env m2)); try reflexivity.
  destruct (time_sleep env 100 w2) as [[[u|e] w3]|]; try reflexivity.
  apply IH.
Qed.

(** X14. [change_mode] reads the name it is given only through
    [upper()]: two names to which [str.upper] gives the same upper-case form
    lead to the same calls, the same clock and output and the same result,
    except that the invalid-mode message quotes each name as it was given. *)
Theorem change_mode_case_insensitive env fuel m1 m2 w :
  upper env m1 = upper env m2 ->
  match change_mode env fuel m1 w, change_mode env fuel m2 w with
  | Some (r1, w1), Some (r2, w2) =>
      w1 = w2 /\
      (r1 = r2 \/
       (r1 = Return (VStr (msg_invalid_mode m1)) /\
        r2 = Return (VStr (msg_invalid_mode m2))))
  | None, None => True
  | _, _ => False
  end.
Proof.
  intros Hup.
  change (same_but (VStr (msg_invalid_mode m1)) (VStr (msg_invalid_mode m2))
            (change_mode env fuel m1 w) (change_mode env fuel m2 w)).
  unfold change_mode.
  apply same_but_bind; intros _ w1.
  apply same_but_try_finally.
  apply same_but_bind; intros _ w2.
  apply same_but_bind; intros table w3.
  rewrite Hup.
  apply same_but_bind; intros [id|] w4.
  - apply same_but_bind; intros _ w5.
    apply same_but_bind; intros t w6.
    unfold bind at 1 3. rewrite (confirm_loop_upper env m1 m2 Hup).
    apply same_but_refl.
  - cbn. auto.
Qed.

Lemma change_mode_case_insensitive_witness :
  upper sitl "guided" = upper sitl "Guided" /\
  match change_mode sitl 51 "guided" start, change_mode sitl 51 "Guided" start with
  | Some (r1, w1), Some (r2, w2) =>
      w1 = w2 /\
      (r1 = r2 \/
       (r1 = Return (VStr (msg_invalid_mode "guided")) /\
        r2 = Return (VStr (msg_invalid_mode "Guided"))))
  | None, None => True
  | _, _ => False
  end.
Proof.
  split; [reflexivity|].
  exact (change_mode_case_insensitive sitl 51 "guided" "Guided" start eq_refl).
Defined.

(** * Calls in sequence *)

Lemma bracketed_app evs1 evs2 : forall opened,
  bracketed opened evs1 = true ->
  bracketed opened (evs1 ++ evs2) = bracketed false evs2.
Proof.
  induction evs1 as [|e evs1 IH]; intros opened H; cbn in *.
  - destruct opened; [discriminate H | reflexivity].
  - destruct (acquired e).
    + apply andb_prop in H as [-> H]. cbn. apply IH, H.
    + destruct (is_close e).
      * apply andb_prop in H as [-> H]. cbn. apply IH, H.
      * apply IH, H.
Qed.

Lemma bracketed_inner mid rc :
  forallb inner mid = true -> bracketed true (mid ++ [EClose rc]) = true.
Proof.
  induction mid as [|e mid IH]; cbn; [reflexivity|].
  intros H. apply andb_prop in H as [He Hmid].
  destruct e; cbn in *; try discriminate He; auto.
Qed.

Lemma invoke_bracketed env float_str fuel op w r w' :
  invoke env float_str fuel op w = Some (r, w') ->
  exists evs, trace w' = trace w ++ evs /\ bracketed false evs = true.
Proof.
  intros H. destruct (invoke_quiet_scope env float_str fuel op) as (body & Hq & Hop).
  rewrite Hop in H.
  destruct (session_scope _ _ _ _ _ Hq H) as (evs & Htr & Hshape).
  exists evs. split; [exact Htr|].
  destruct Hshape as [(e & -> & _) | (mid & rc & -> & Hmid)]; [reflexivity|].
  cbn. apply bracketed_inner, Hmid.
Qed.

(** X15. However many tool calls are handled one after the other, and
    however each ends, the connections never overlap and none is left
    behind: over the whole trace a connection is opened only while none is
    open, closed only while one is open, and at the end none is open. *)
Theorem sessions_never_overlap env float_str fuel ops : forall w rs w',
  serve env float_str fuel ops w = Some (rs, w') ->
  exists evs, trace w' = trace w ++ evs /\ bracketed false evs = true.
Proof.
  induction ops as [|op ops IH]; intros w rs w' H; cbn in H.
  - injection H as <- <-. exists [].
    split; [symmetry; apply app_nil_r | reflexivity].
  - destruct (invoke env float_str fuel op w) as [[r w1]|] eqn:Hop; [|discriminate H].
    destruct (serve env float_str fuel ops w1) as [[rs' w2]|] eqn:Hrest; [|discriminate H].
    injection H as <- <-.
    destruct (IH _ _ _ Hrest) as (evs2 & Htr2 & Hb2).
    destruct (invoke_bracketed _ _ _ _ _ _ _ Hop) as (evs1 & Htr1 & Hb1).
    exists (evs1 ++ evs2). split.
    + rewrite Htr2, Htr1, app_assoc. reflexivity.
    + rewrite (bracketed_app _ _ _ Hb1). exact Hb2.
Qed.

Lemma sessions_never_overlap_witness :
  exists rs w',
    serve sitl repr_15 51 [Arm; GetStatus; ChangeMode "loiter"; Disarm] start =
      Some (rs, w') /\
    exists evs, trace w' = trace start ++ evs /\ bracketed false evs = true.
Proof.
  eexists _, _.
  match goal with
  | |- ?R /\ _ => assert (Hrun : R) by (vm_compute; reflexivity)
  end.
  split; [exact Hrun|].
  exact (sessions_never_overlap sitl repr_15 51
           [Arm; GetStatus; ChangeMode "loiter"; Disarm] start _ _ Hrun).
Defined.
